(** * The fraud-scoring inference service (services/ml-service/app.py)

    A shallow embedding of the Flask service: the two module globals
    [model] and [model_meta], the loader [load_model], and the three request
    handlers [health], [predict] and [get_features].

    Python values that reach the handlers are JSON values (the request body,
    the metadata file) and floats.  The arithmetic of the artifact's output
    (numpy scalars, converted with [float()]) is kept behind the interface
    [FloatOps], with two instances: IEEE binary64 ([binary64], Python's float)
    and exact rationals ([exact]).  What is library code for the service
    (numpy's array constructor, the pickled classifier, Flask's body parser,
    the two files read at start-up) is an input of the model.  Calls to
    [logger] write to the process log only and are left out. *)

From Stdlib Require Import List String Ascii ZArith QArith Bool Lia.
From Stdlib Require Import DecimalString Floats Lqa.
Import ListNotations.

Close Scope Q_scope.
Open Scope string_scope.

Set Warnings "-register-all,-inexact-float".

(** ** Floats *)

(** The operations the service and its specification use on floating values:
    [+] on the artifact's scalars, the comparisons [<=] and [==], and the
    test for a finite value (neither NaN nor an infinity). *)
Class FloatOps (F : Type) := {
  fadd : F -> F -> F;
  fle : F -> F -> bool;
  feqb : F -> F -> bool;
  is_finite : F -> bool;
  fzero : F;
  fone : F
}.

(** IEEE 754 binary64: Python's [float] and numpy's [float64]. *)
#[export] Instance binary64 : FloatOps float := {
  fadd := PrimFloat.add;
  fle := PrimFloat.leb;
  feqb := PrimFloat.eqb;
  is_finite := fun x => negb (PrimFloat.is_nan x || PrimFloat.is_infinity x);
  fzero := PrimFloat.zero;
  fone := PrimFloat.one
}.

(** The binary64 values that are not below zero, in the representation
    the specification of the primitive floats uses: the zeros, plus
    infinity and the finite values without sign. *)
Definition sf_nonneg (x : spec_float) : Prop :=
  match x with
  | S754_zero _ => True
  | S754_infinity sign => sign = false
  | S754_finite sign _ _ => sign = false
  | S754_nan => False
  end.

(** Exact rational arithmetic: floats without rounding and without special
    values. *)
#[export] Instance exact : FloatOps Q := {
  fadd := Qplus;
  fle := Qle_bool;
  feqb := Qeq_bool;
  is_finite := fun _ => true;
  fzero := 0%Q;
  fone := 1%Q
}.

(** ** JSON values

    What [json.load] and [request.get_json] return, and what [jsonify] is
    given: [None], booleans, ints, floats, strings, lists and dicts with
    string keys.  A dict is its list of items in insertion order, the keys
    distinct; a lookup takes the first item with the key. *)
Inductive json (F : Type) : Type :=
| JNull
| JBool (b : bool)
| JInt (z : Z)
| JFloat (x : F)
| JStr (s : string)
| JArr (items : list (json F))
| JObj (items : list (string * json F)).

Arguments JNull {F}.
Arguments JBool {F} b.
Arguments JInt {F} z.
Arguments JFloat {F} x.
Arguments JStr {F} s.
Arguments JArr {F} items.
Arguments JObj {F} items.

(** ** Exceptions *)

(** The keys the service subscripts the metadata with:
    [model_meta['features']] and [model_meta['model_version']]. *)
Inductive subscript : Type :=
| Features
| ModelVersion.

Definition key_of (key : subscript) : string :=
  match key with
  | Features => "features"
  | ModelVersion => "model_version"
  end.

(** What can be raised.  The first four are the built-in exceptions the
    handlers' own expressions raise.  [Raised] is any other exception that
    derives from [Exception], raised by library code (the artifact, numpy,
    Flask's parser, the file system) and known by its message.
    [BaseRaised] is a [BaseException] that is not an [Exception]
    ([KeyboardInterrupt], [SystemExit], [GeneratorExit]). *)
Inductive exn : Type :=
| KeyError (key : subscript)
| IndexError (msg : string)
| TypeError (msg : string)
| AttributeError (msg : string)
| Raised (msg : string)
| BaseRaised (msg : string).

(** [isinstance(e, Exception)]: what [except Exception] catches. *)
Definition is_exception (e : exn) : bool :=
  match e with
  | BaseRaised _ => false
  | _ => true
  end.

(** [str(e)]: a KeyError prints the repr of its key (for the two keys of
    [subscript], the key between single quotes), the others their message. *)
Definition str (e : exn) : string :=
  match e with
  | KeyError key => "'" ++ key_of key ++ "'"
  | IndexError msg => msg
  | TypeError msg => msg
  | AttributeError msg => msg
  | Raised msg => msg
  | BaseRaised msg => msg
  end.

(** The outcome of an expression that may raise. *)
Inductive Exc (A : Type) : Type :=
| Ok (a : A)
| Raise (e : exn).

Arguments Ok {A} a.
Arguments Raise {A} e.

(** Strings hold text in UTF-8.  A character is one byte that is not a
    continuation byte (10xxxxxx), followed by its continuation bytes, so
    the number of characters is the number of bytes that are not
    continuation bytes. *)
Definition continuation_byte (c : ascii) : bool :=
  match c with
  | Ascii _ _ _ _ _ _ false true => true
  | _ => false
  end.

Fixpoint str_len (s : string) : nat :=
  match s with
  | EmptyString => 0
  | String c rest => if continuation_byte c then str_len rest else S (str_len rest)
  end.

(** Decimal rendering of a length, as an f-string prints it. *)
Definition str_nat (n : nat) : string :=
  NilEmpty.string_of_uint (Nat.to_uint n).

Section Values.

Context {F : Type} {FO : FloatOps F}.

(** [type(v).__name__] *)
Definition type_name (v : json F) : string :=
  match v with
  | JNull => "NoneType"
  | JBool _ => "bool"
  | JInt _ => "int"
  | JFloat _ => "float"
  | JStr _ => "str"
  | JArr _ => "list"
  | JObj _ => "dict"
  end.

(** [bool(v)], as [if model_meta] tests it. *)
Definition truthy (v : json F) : bool :=
  match v with
  | JNull => false
  | JBool b => b
  | JInt z => negb (Z.eqb z 0)
  | JFloat x => negb (feqb x fzero)
  | JStr s => negb (String.eqb s EmptyString)
  | JArr items => match items with [] => false | _ => true end
  | JObj items => match items with [] => false | _ => true end
  end.

(** Lookup in a dict's items. *)
Fixpoint dict_get (key : string) (items : list (string * json F)) : option (json F) :=
  match items with
  | [] => None
  | (k, v) :: rest => if String.eqb k key then Some v else dict_get key rest
  end.

(** [v.get(key, default)]: only a dict has the method. *)
Definition py_get (v : json F) (key : string) (default : json F) : Exc (json F) :=
  match v with
  | JObj items =>
      match dict_get key items with
      | Some x => Ok x
      | None => Ok default
      end
  | _ => Raise (AttributeError ("'" ++ type_name v ++ "' object has no attribute 'get'"))
  end.

(** [v[key]] with one of the two string keys. *)
Definition py_getitem (v : json F) (key : subscript) : Exc (json F) :=
  match v with
  | JObj items =>
      match dict_get (key_of key) items with
      | Some x => Ok x
      | None => Raise (KeyError key)
      end
  | JArr _ => Raise (TypeError "list indices must be integers or slices, not str")
  | JStr _ => Raise (TypeError "string indices must be integers, not 'str'")
  | _ => Raise (TypeError ("'" ++ type_name v ++ "' object is not subscriptable"))
  end.

(** [len(v)]; the length of a string is its number of characters. *)
Definition py_len (v : json F) : Exc nat :=
  match v with
  | JStr s => Ok (str_len s)
  | JArr items => Ok (List.length items)
  | JObj items => Ok (List.length items)
  | _ => Raise (TypeError ("object of type '" ++ type_name v ++ "' has no len()"))
  end.

(** [a[i]] on a one-axis numpy array (or the rows of a two-axis one). *)
Definition np_index {A : Type} (a : list A) (i : nat) : Exc A :=
  match nth_error a i with
  | Some x => Ok x
  | None =>
      Raise (IndexError ("index " ++ str_nat i ++ " is out of bounds for axis 0 with size "
                         ++ str_nat (List.length a)))
  end.

(** [float(x)] on a numpy scalar keeps its value. *)
Definition py_float (x : F) : F := x.

(** [int(x)] on an integer label keeps its value. *)
Definition py_int (z : Z) : Z := z.

End Values.

(** ** Library code the service calls *)

(** numpy: the type of float arrays, and [np.array(v, dtype=float)], which
    raises on values it cannot convert. *)
Class Numpy (F : Type) := {
  ndarray : Type;
  np_array : json F -> Exc ndarray
}.

Section Service.

Context {F : Type} {FO : FloatOps F} {NP : Numpy F}.

(** An unpickled object other than [None], by its two methods:
    [predict_proba] gives one row of class probabilities per input row,
    [predict] one label per input row.  Both are functions of the input
    array and may raise; an object without the methods raises
    AttributeError. *)
Record Artifact : Type := {
  predict_proba : ndarray -> Exc (list (list F));
  predict_labels : ndarray -> Exc (list Z)
}.

(** ** Process state: the module globals

    [model] is [None] or the unpickled object; [model_meta] is [None]
    ([JNull]) or what [json.load] returned. *)
Record State : Type := {
  model : option Artifact;
  model_meta : json F
}.

(** The state of a freshly imported module: [model = None],
    [model_meta = None]. *)
Definition initial : State := {| model := None; model_meta := JNull |}.

(** ** Computations over the globals

    A computation reads and writes the globals and returns or raises; an
    assignment made before an exception stays made. *)
Definition Prog (A : Type) : Type := State -> Exc A * State.

Definition ret {A : Type} (a : A) : Prog A := fun s => (Ok a, s).

Definition bind {A B : Type} (m : Prog A) (k : A -> Prog B) : Prog B :=
  fun s =>
    match m s with
    | (Ok a, s') => k a s'
    | (Raise e, s') => (Raise e, s')
    end.

(** An expression that may raise, evaluated inside a computation. *)
Definition lift {A : Type} (x : Exc A) : Prog A := fun s => (x, s).

(** [try: body except Exception as e: handler]; what is not an
    [Exception] goes through. *)
Definition try_except {A : Type} (body : Prog A) (handler : exn -> Prog A) : Prog A :=
  fun s =>
    match body s with
    | (Ok a, s') => (Ok a, s')
    | (Raise e, s') => if is_exception e then handler e s' else (Raise e, s')
    end.

(** Reading a global. *)
Definition get_model : Prog (option Artifact) := fun s => (Ok (model s), s).
Definition get_model_meta : Prog (json F) := fun s => (Ok (model_meta s), s).

(** Assigning a global (under [global model, model_meta]). *)
Definition set_model (m : option Artifact) : Prog unit :=
  fun s => (Ok tt, {| model := m; model_meta := model_meta s |}).
Definition set_model_meta (j : json F) : Prog unit :=
  fun s => (Ok tt, {| model := model s; model_meta := j |}).

End Service.

Declare Scope prog_scope.
Delimit Scope prog_scope with prog.
Notation "x <- m ;; k" := (bind m (fun x => k))
  (at level 61, m at next level, right associativity) : prog_scope.
Notation "m ;;; k" := (bind m (fun _ => k))
  (at level 61, right associativity) : prog_scope.

Section Handlers.

Context {F : Type} {FO : FloatOps F} {NP : Numpy F}.

Local Open Scope prog_scope.

(** A response: what [jsonify] was given, and the status code (200 when the
    handler returns the body alone). *)
Record Response : Type := {
  body : json F;
  status : nat
}.

Definition jsonify (items : list (string * json F)) (code : nat) : Response :=
  {| body := JObj items; status := code |}.

(** ** The loader *)

(** The two files behind [MODEL_PATH] and [META_PATH]: what [open] followed
    by [pickle.load], and [open] followed by [json.load], give.  The model
    file may hold a pickled [None]. *)
Record Files : Type := {
  pickle_load : Exc (option (@Artifact F NP));
  json_load : Exc (json F)
}.

(** [load_model()]: assigns [model], then [model_meta], then formats the
    log line with [model_meta['model_version']]; [True] when none of the
    three raised. *)
Definition load_model (files : Files) : Prog bool :=
  try_except
    (m <- lift (pickle_load files) ;;
     set_model m ;;;
     j <- lift (json_load files) ;;
     set_model_meta j ;;;
     meta <- get_model_meta ;;
     _ <- lift (py_getitem meta ModelVersion) ;;
     ret true)
    (fun _ => ret false).

(** The [__main__] block: the application runs in the state [load_model]
    left when it returned [True]; otherwise the process ends and nothing is
    served. *)
Definition main (files : Files) : option State :=
  match load_model files initial with
  | (Ok true, s) => Some s
  | _ => None
  end.

(** ** GET /health *)
Definition health : Prog Response :=
  m <- get_model ;;
  meta <- get_model_meta ;;
  version <- (if truthy meta then lift (py_get meta "model_version" JNull) else ret JNull) ;;
  ret (jsonify
         [("status", JStr (match m with Some _ => "UP" | None => "DOWN" end));
          ("model_loaded", JBool (match m with Some _ => true | None => false end));
          ("model_version", version)]
         200).

(** ** POST /predict *)

(** The fraud probability of one row of class probabilities. *)
Definition fraud_probability_of (probabilities : list F) : Exc F :=
  if Nat.eqb (List.length probabilities) 2 then
    np_index probabilities 1
  else if Nat.ltb 2 (List.length probabilities) then
    match np_index probabilities 1 with
    | Ok p1 =>
        match np_index probabilities 2 with
        | Ok p2 => Ok (fadd p1 p2)
        | Raise e => Raise e
        end
    | Raise e => Raise e
    end
  else
    np_index probabilities 1.

(** [call(...)[0]]: the first entry of what a call returned. *)
Definition first_row {A : Type} (returned : Exc (list A)) : Exc A :=
  match returned with
  | Ok rows => np_index rows 0
  | Raise e => Raise e
  end.

(** The request, as the parsed body [request.get_json()] gives it: the
    parser raises on a body it refuses. *)
Record Request : Type := {
  get_json : Exc (json F)
}.

Definition predict (request : Request) : Prog Response :=
  m <- get_model ;;
  match m with
  | None => ret (jsonify [("error", JStr "Model not loaded")] 503)
  | Some classifier =>
      try_except
        (data <- lift (get_json request) ;;
         features <- lift (py_get data "features" (JArr [])) ;;
         meta <- get_model_meta ;;
         got <- lift (py_len features) ;;
         names <- lift (py_getitem meta Features) ;;
         expected <- lift (py_len names) ;;
         if negb (Nat.eqb got expected) then
           ret (jsonify
                  [("error", JStr ("Expected " ++ str_nat expected ++ " features, got "
                                   ++ str_nat got));
                   ("expected_features", names)]
                  400)
         else
           feature_array <- lift (np_array (JArr [features])) ;;
           probabilities <- lift (first_row (predict_proba classifier feature_array)) ;;
           fraud_probability <- lift (fraud_probability_of probabilities) ;;
           prediction <- lift (first_row (predict_labels classifier feature_array)) ;;
           version <- lift (py_getitem meta ModelVersion) ;;
           ret (jsonify
                  [("fraud_probability", JFloat (py_float fraud_probability));
                   ("prediction", JInt (py_int prediction));
                   ("probabilities", JArr (map (fun p => JFloat (py_float p)) probabilities));
                   ("model_version", version)]
                  200))
        (fun e => ret (jsonify [("error", JStr (str e))] 500))
  end.

(** ** GET /features *)
Definition get_features : Prog Response :=
  meta <- get_model_meta ;;
  match meta with
  | JNull => ret (jsonify [("error", JStr "Metadata not loaded")] 503)
  | _ =>
      features <- lift (py_getitem meta Features) ;;
      version <- lift (py_getitem meta ModelVersion) ;;
      block_threshold <- lift (py_get meta "block_threshold" JNull) ;;
      roc_auc <- lift (py_get meta "roc_auc" JNull) ;;
      pr_auc <- lift (py_get meta "pr_auc" JNull) ;;
      ret (jsonify
             [("features", features);
              ("model_version", version);
              ("block_threshold", block_threshold);
              ("roc_auc", roc_auc);
              ("pr_auc", pr_auc)]
             200)
  end.

End Handlers.

(** ** Concrete library code for the examples *)

(** A list of JSON floats as the row of floats it holds. *)
Fixpoint floats_of {F : Type} (items : list (json F)) : Exc (list F) :=
  match items with
  | [] => Ok []
  | JFloat x :: rest =>
      match floats_of rest with
      | Ok row => Ok (x :: row)
      | Raise e => Raise e
      end
  | _ :: _ => Raise (Raised "not a list of floats")
  end.

(** numpy on the inputs the examples send: a list holding one list of
    floats becomes the one-row array of these floats, and a list holding a
    dict is refused with the TypeError of [float(dict)].  The examples send
    nothing else; what this stand-in does with other values (it refuses
    them) says nothing about numpy, which converts some of them. *)
Definition rows_numpy (F : Type) : Numpy F := {|
  ndarray := list (list F);
  np_array := fun v =>
    match v with
    | JArr [JArr items] =>
        match floats_of items with
        | Ok row => Ok [row]
        | Raise e => Raise e
        end
    | JArr [JObj _] =>
        Raise (TypeError "float() argument must be a string or a real number, not 'dict'")
    | _ => Raise (Raised "not a list of floats")
    end
|}.

(** A classifier that answers every row with the same distribution and the
    same label. *)
Definition constant_classifier {F : Type} (NP : Numpy F)
    (distribution : list F) (label : Z) : @Artifact F NP := {|
  predict_proba := fun _ => Ok [distribution];
  predict_labels := fun _ => Ok [label]
|}.

(** A classifier whose calls raise. *)
Definition raising_classifier {F : Type} (NP : Numpy F) (msg : string) : @Artifact F NP := {|
  predict_proba := fun _ => Raise (Raised msg);
  predict_labels := fun _ => Raise (Raised msg)
|}.

(** A metadata file with two features. *)
Definition example_meta {F : Type} : json F :=
  JObj [("model_version", JStr "xgb-1.0");
        ("features", JArr [JStr "amount"; JStr "velocity"]);
        ("block_threshold", JNull)].

(** The state after loading [classifier] and [example_meta]. *)
Definition example_state {F : Type} (NP : Numpy F) (classifier : @Artifact F NP) : @State F NP :=
  {| model := Some classifier; model_meta := example_meta |}.

(** A request whose body is [{"features": values}]. *)
Definition features_request {F : Type} (values : list F) : @Request F :=
  {| get_json := Ok (JObj [("features", JArr (map JFloat values))]) |}.

(** ** Concrete classifiers, requests and files *)

(** A binary and a three-class classifier over binary64, and the request the
    examples send to them. *)
Definition binary_classifier : @Artifact float (rows_numpy float) :=
  constant_classifier (rows_numpy float) [0.75; 0.25]%float 0.

Definition three_class_classifier : @Artifact float (rows_numpy float) :=
  constant_classifier (rows_numpy float) [0.5; 0.25; 0.25]%float 1.

Definition example_request : @Request float := features_request [1; 2]%float.

Definition nan_classifier : @Artifact float (rows_numpy float) :=
  constant_classifier (rows_numpy float) [0.5%float; PrimFloat.nan] 1.

Definition empty_body_request : @Request float := {| get_json := Ok (JObj []) |}.

(** A distribution of three non-negative entries whose sum is one within
    1e-9: the last entry is the float next above one half. *)
Definition rounding_classifier : @Artifact float (rows_numpy float) :=
  constant_classifier (rows_numpy float) [0; 0.5; 0.5000000000000002]%float 2.

(** A model file that holds a pickled [None], beside [example_meta]. *)
Definition none_files : @Files float (rows_numpy float) :=
  {| pickle_load := Ok None; json_load := Ok example_meta |}.

Definition none_state : @State float (rows_numpy float) :=
  {| model := None; model_meta := example_meta |}.

(** A metadata file that holds the list [[1]]. *)
Definition list_meta_files : @Files float (rows_numpy float) :=
  {| pickle_load := Ok (Some binary_classifier); json_load := Ok (JArr [JInt 1]) |}.

Definition list_meta_state : @State float (rows_numpy float) :=
  {| model := Some binary_classifier; model_meta := JArr [JInt 1] |}.

(** A classifier interrupted during its calls. *)
Definition interrupted_classifier : @Artifact float (rows_numpy float) :=
  {| predict_proba := fun _ => Raise (BaseRaised "KeyboardInterrupt");
     predict_labels := fun _ => Raise (BaseRaised "KeyboardInterrupt") |}.

(** A body that names its two features: [{"features": {"amount": 1.0,
    "velocity": 2.0}}]. *)
Definition dict_features_request : @Request float :=
  {| get_json :=
       Ok (JObj [("features",
                  JObj [("amount", JFloat 1%float); ("velocity", JFloat 2%float)])]) |}.

Definition example_files : @Files float (rows_numpy float) :=
  {| pickle_load := Ok (Some binary_classifier); json_load := Ok example_meta |}.

Definition shape_error : string := "Feature shape mismatch, expected: 9, got 2".
Definition memory_error : string := "std::bad_alloc".

Definition shape_error_classifier : @Artifact float (rows_numpy float) :=
  raising_classifier (rows_numpy float) shape_error.

Definition memory_error_classifier : @Artifact float (rows_numpy float) :=
  raising_classifier (rows_numpy float) memory_error.

Definition one_class_classifier : @Artifact float (rows_numpy float) :=
  constant_classifier (rows_numpy float) [1%float] 0.

(** ** Further classifiers, requests and files *)

(** A classifier that returns no row and no label. *)
Definition silent_classifier : @Artifact float (rows_numpy float) :=
  {| predict_proba := fun _ => Ok []; predict_labels := fun _ => Ok [] |}.

(** Bodies that cannot be scored: [{"features": null}], and a feature
    vector given as the two-character string [ab]. *)
Definition null_features_request : @Request float :=
  {| get_json := Ok (JObj [("features", JNull)]) |}.

Definition string_features_request : @Request float :=
  {| get_json := Ok (JObj [("features", JStr "ab")]) |}.

(** The model file without a metadata file beside it. *)
Definition files_without_metadata : @Files float (rows_numpy float) :=
  {| pickle_load := Ok (Some binary_classifier);
     json_load := Raise (Raised "No such file or directory") |}.

(** A metadata file that has the version and nothing else. *)
Definition version_only_meta : json float :=
  JObj [("model_version", JStr "xgb-1.0")].

Definition version_only_files : @Files float (rows_numpy float) :=
  {| pickle_load := Ok (Some binary_classifier); json_load := Ok version_only_meta |}.

Definition version_only_state : @State float (rows_numpy float) :=
  {| model := Some binary_classifier; model_meta := version_only_meta |}.

(** The metadata file without a model file beside it. *)
Definition files_without_model : @Files float (rows_numpy float) :=
  {| pickle_load := Raise (Raised "No such file or directory");
     json_load := Ok example_meta |}.

(** The answers of the three handlers in [example_state] with the binary
    classifier: the score of [example_request], the feature schema, health,
    and the refusal of a vector of one float. *)
Definition binary_answer : @Response float :=
  {| body := JObj [("fraud_probability", JFloat 0.25%float);
                   ("prediction", JInt 0);
                   ("probabilities", JArr [JFloat 0.75%float; JFloat 0.25%float]);
                   ("model_version", JStr "xgb-1.0")];
     status := 200 |}.

Definition example_schema : @Response float :=
  {| body := JObj [("features", JArr [JStr "amount"; JStr "velocity"]);
                   ("model_version", JStr "xgb-1.0");
                   ("block_threshold", JNull);
                   ("roc_auc", JNull);
                   ("pr_auc", JNull)];
     status := 200 |}.

Definition up_answer : @Response float :=
  {| body := JObj [("status", JStr "UP"); ("model_loaded", JBool true);
                   ("model_version", JStr "xgb-1.0")];
     status := 200 |}.

Definition refusal_answer : @Response float :=
  {| body := JObj [("error", JStr "Expected 2 features, got 1");
                   ("expected_features", JArr [JStr "amount"; JStr "velocity"])];
     status := 400 |}.

(** The initial state over binary64. *)
Definition unloaded_state : @State float (rows_numpy float) := initial.

(** The state a load without a metadata file leaves. *)
Definition half_loaded_state : @State float (rows_numpy float) :=
  {| model := Some binary_classifier; model_meta := JNull |}.

(** * Vocabulary of the properties *)

Section Vocabulary.

Context {F : Type} {FO : FloatOps F} {NP : Numpy F}.

(** The field [key] of a response's JSON object. *)
Definition field (key : string) (r : @Response F) : option (json F) :=
  match body r with
  | JObj items => dict_get key items
  | _ => None
  end.

(** A scoring request that passes the checks of [predict] in state [s] and
    reaches the classifier with [feature_array]: a model is loaded, the body
    parses, and the length of its feature vector (the empty list when the
    body has none) is the length of the metadata's feature list. *)
Inductive reaches_classifier (s : State) (request : Request)
    (classifier : Artifact) (feature_array : ndarray) : Prop :=
| reaches_intro (data features names : json F) (n : nat) :
    model s = Some classifier ->
    get_json request = Ok data ->
    py_get data "features" (JArr []) = Ok features ->
    py_len features = Ok n ->
    py_getitem (model_meta s) Features = Ok names ->
    py_len names = Ok n ->
    np_array (JArr [features]) = Ok feature_array ->
    reaches_classifier s request classifier feature_array.

(** The sum of a distribution, added up from the left. *)
Definition fsum (probabilities : list F) : F :=
  fold_left fadd probabilities fzero.

(** [x] is non-negative. *)
Definition nonneg (x : F) : Prop := fle fzero x = true.

(** The sum of [probabilities] lies between [lo] and [hi]: for [lo] and
    [hi] close to one, it is one within that tolerance. *)
Definition sums_within (lo hi : F) (probabilities : list F) : Prop :=
  fle lo (fsum probabilities) = true /\ fle (fsum probabilities) hi = true.

(** The sum of two non-negative values is non-negative.  IEEE 754 addition
    has the property ([binary64_nonneg_add]), and so has exact arithmetic
    ([exact_nonneg_add]). *)
Class NonnegAdd : Prop := {
  fadd_nonneg : forall x y, nonneg x -> nonneg y -> nonneg (fadd x y)
}.

(** What [except Exception as e] of [predict] makes of a raised [e]: the
    answer with status 500 and [str(e)], or [e] itself when it is not an
    [Exception]. *)
Definition caught (e : exn) (s : @State F NP) : Exc (@Response F) * @State F NP :=
  if is_exception e
  then (Ok (jsonify [("error", JStr (str e))] 500), s)
  else (Raise e, s).

(** A request whose body cannot be read as an object with a sized feature
    vector, and the exception that reading it raises: the parser refuses
    the body with an [Exception]; the parsed body is not an object, so it
    has no [get]; the features entry is [None], a boolean or a number, which
    have no [len]. *)
Inductive malformed (request : @Request F) : exn -> Prop :=
| malformed_unparsed (e : exn) :
    get_json request = Raise e ->
    is_exception e = true ->
    malformed request e
| malformed_not_object (data : json F) :
    get_json request = Ok data ->
    (forall items, data <> JObj items) ->
    malformed request
      (AttributeError ("'" ++ type_name data ++ "' object has no attribute 'get'"))
| malformed_unsized (items : list (string * json F)) (features : json F) :
    get_json request = Ok (JObj items) ->
    dict_get "features" items = Some features ->
    (features = JNull \/ (exists b, features = JBool b) \/
     (exists z, features = JInt z) \/ (exists x, features = JFloat x)) ->
    malformed request
      (TypeError ("object of type '" ++ type_name features ++ "' has no len()")).

End Vocabulary.

(** * Tactics *)

(** Unfolding the computations of a handler. *)
Ltac run :=
  unfold predict, health, get_features, load_model, main, bind, try_except, lift, ret,
    get_model, get_model_meta, set_model, set_model_meta, jsonify;
  simpl.

(** Case analysis on the innermost scrutinee first. *)
Ltac cases :=
  repeat match goal with
         | |- context [match ?x with _ => _ end] =>
             lazymatch x with
             | context [match _ with _ => _ end] => fail
             | _ => destruct x; simpl
             end
         end.

(** * Properties *)

Example str_nat_12 : str_nat 12 = "12".
Proof. reflexivity. Qed.

Example np_index_out :
  np_index [1%Z] 1 = Raise (IndexError "index 1 is out of bounds for axis 0 with size 1").
Proof. reflexivity. Qed.


Section Properties.

Context {F : Type} {FO : FloatOps F} {NP : Numpy F}.

(** What [predict] does once the request has reached the classifier: the
    rest of the [try] block. *)
Lemma predict_reaches (s : State) (request : Request) (classifier : Artifact)
    (feature_array : ndarray) :
  reaches_classifier s request classifier feature_array ->
  predict request s =
    match first_row (predict_proba classifier feature_array) with
    | Raise e => caught e s
    | Ok probabilities =>
        match fraud_probability_of probabilities with
        | Raise e => caught e s
        | Ok fraud_probability =>
            match first_row (predict_labels classifier feature_array) with
            | Raise e => caught e s
            | Ok prediction =>
                match py_getitem (model_meta s) ModelVersion with
                | Raise e => caught e s
                | Ok version =>
                    (Ok (jsonify
                           [("fraud_probability", JFloat (py_float fraud_probability));
                            ("prediction", JInt (py_int prediction));
                            ("probabilities",
                             JArr (map (fun p => JFloat (py_float p)) probabilities));
                            ("model_version", version)]
                           200), s)
                end
            end
        end
    end.
Proof.
  intros [data features names n Hm Hd Hf Hn Hnames Hlen Harr].
  run. rewrite Hm, Hd. simpl. rewrite Hf. simpl. rewrite Hn. simpl.
  rewrite Hnames. simpl. rewrite Hlen. simpl. rewrite Nat.eqb_refl. simpl.
  rewrite Harr. simpl. unfold caught.
  destruct (first_row (predict_proba classifier feature_array)) as [ps|e]; simpl;
    [|destruct (is_exception e); reflexivity].
  destruct (fraud_probability_of ps) as [fp|e]; simpl;
    [|destruct (is_exception e); reflexivity].
  destruct (first_row (predict_labels classifier feature_array)) as [label|e]; simpl;
    [|destruct (is_exception e); reflexivity].
  destruct (py_getitem (model_meta s) ModelVersion) as [version|e];
    [|destruct (is_exception e)]; reflexivity.
Qed.

(** ** The aggregation rule *)

Lemma fraud_probability_two (p0 p1 : F) :
  fraud_probability_of [p0; p1] = Ok p1.
Proof. reflexivity. Qed.

Lemma fraud_probability_many (p0 p1 p2 : F) (rest : list F) :
  fraud_probability_of (p0 :: p1 :: p2 :: rest) = Ok (fadd p1 p2).
Proof. reflexivity. Qed.

Lemma fraud_probability_short (probabilities : list F) :
  List.length probabilities < 2 ->
  fraud_probability_of probabilities = np_index probabilities 1 /\
  np_index probabilities 1 =
    Raise (IndexError ("index 1 is out of bounds for axis 0 with size "
                       ++ str_nat (List.length probabilities))).
Proof.
  destruct probabilities as [|p0 [|p1 rest]]; simpl; intros H; try lia; split; reflexivity.
Qed.

(** A list of two entries, and a list of three or more, by their shape. *)
Lemma length_two {A : Type} (l : list A) :
  List.length l = 2 -> exists a b, l = [a; b].
Proof.
  destruct l as [|a [|b [|c l]]]; simpl; intros H; try discriminate.
  exists a, b. reflexivity.
Qed.

Lemma length_three {A : Type} (l : list A) :
  3 <= List.length l -> exists a b c rest, l = a :: b :: c :: rest.
Proof.
  destruct l as [|a [|b [|c l]]]; simpl; intros H; try lia.
  exists a, b, c, l. reflexivity.
Qed.

(** C1: for a scoring request that reaches a loaded classifier whose
    distribution has exactly 2 entries, the returned fraud_probability is
    probabilities[1]; with 3 or more entries it is
    probabilities[1] + probabilities[2].  The choice depends on the number of
    entries only. *)
Theorem fraud_probability_by_entry_count
    (s : State) (request : Request) (classifier : Artifact) (feature_array : ndarray)
    (probabilities : list F) (prediction : Z) (version : json F) :
  reaches_classifier s request classifier feature_array ->
  first_row (predict_proba classifier feature_array) = Ok probabilities ->
  first_row (predict_labels classifier feature_array) = Ok prediction ->
  py_getitem (model_meta s) ModelVersion = Ok version ->
  (List.length probabilities = 2 ->
   exists r p1,
     predict request s = (Ok r, s) /\ status r = 200 /\
     nth_error probabilities 1 = Some p1 /\
     field "fraud_probability" r = Some (JFloat p1)) /\
  (3 <= List.length probabilities ->
   exists r p1 p2,
     predict request s = (Ok r, s) /\ status r = 200 /\
     nth_error probabilities 1 = Some p1 /\
     nth_error probabilities 2 = Some p2 /\
     field "fraud_probability" r = Some (JFloat (fadd p1 p2))).
Proof.
  intros Hreach Hproba Hlabel Hversion.
  pose proof (predict_reaches _ _ _ _ Hreach) as Hrun.
  rewrite Hproba, Hlabel, Hversion in Hrun.
  split; intros Hlen.
  - destruct (length_two _ Hlen) as (p0 & p1 & ->).
    rewrite fraud_probability_two in Hrun.
    eexists; exists p1. split; [exact Hrun|]. repeat split.
  - destruct (length_three _ Hlen) as (p0 & p1 & p2 & rest & ->).
    rewrite fraud_probability_many in Hrun.
    eexists; exists p1, p2. split; [exact Hrun|]. repeat split.
Qed.

(** C10: when the distribution has fewer than 2 entries, [probabilities[1]]
    raises IndexError and the request is answered by the catch-all handler
    with status 500 and the exception's message: no success response and no
    error of its own for the unsupported shape. *)
Theorem short_distribution_is_server_error
    (s : State) (request : Request) (classifier : Artifact) (feature_array : ndarray)
    (probabilities : list F) :
  reaches_classifier s request classifier feature_array ->
  first_row (predict_proba classifier feature_array) = Ok probabilities ->
  List.length probabilities < 2 ->
  exists e,
    np_index probabilities 1 = Raise e /\
    e = IndexError ("index 1 is out of bounds for axis 0 with size "
                    ++ str_nat (List.length probabilities)) /\
    predict request s = (Ok (jsonify [("error", JStr (str e))] 500), s).
Proof.
  intros Hreach Hproba Hlen.
  pose proof (predict_reaches _ _ _ _ Hreach) as Hrun.
  destruct (fraud_probability_short _ Hlen) as [Hfraud Hindex].
  rewrite Hproba, Hfraud, Hindex in Hrun.
  eexists. split; [exact Hindex|]. split; [reflexivity|exact Hrun].
Qed.

(** ** Requests refused before the classifier is called *)

(** The answer to a feature vector of the wrong length. *)
Lemma predict_length_mismatch
    (s : State) (request : Request) (classifier : Artifact)
    (data features names : json F) (got expected : nat) :
  model s = Some classifier ->
  get_json request = Ok data ->
  py_get data "features" (JArr []) = Ok features ->
  py_len features = Ok got ->
  py_getitem (model_meta s) Features = Ok names ->
  py_len names = Ok expected ->
  got <> expected ->
  predict request s =
    (Ok (jsonify
           [("error", JStr ("Expected " ++ str_nat expected ++ " features, got "
                            ++ str_nat got));
            ("expected_features", names)]
           400), s).
Proof.
  intros Hm Hd Hf Hgot Hnames Hexp Hne.
  run. rewrite Hm, Hd. simpl. rewrite Hf. simpl. rewrite Hgot. simpl.
  rewrite Hnames. simpl. rewrite Hexp. simpl.
  apply Nat.eqb_neq in Hne. rewrite Hne. reflexivity.
Qed.

(** C4: with a model loaded, a feature vector whose length differs from the
    length of the metadata's feature list is answered with status 400, and
    the payload's expected_features is the loaded feature list itself. *)
Theorem wrong_length_echoes_expected_features
    (s : State) (request : Request) (classifier : Artifact)
    (data features : json F) (names : list (json F)) (got : nat) :
  model s = Some classifier ->
  get_json request = Ok data ->
  py_get data "features" (JArr []) = Ok features ->
  py_len features = Ok got ->
  py_getitem (model_meta s) Features = Ok (JArr names) ->
  got <> List.length names ->
  exists r,
    predict request s = (Ok r, s) /\
    status r = 400 /\
    field "expected_features" r = Some (JArr names) /\
    field "error" r =
      Some (JStr ("Expected " ++ str_nat (List.length names) ++ " features, got "
                  ++ str_nat got)).
Proof.
  intros Hm Hd Hf Hgot Hnames Hne.
  eexists. split.
  - eapply predict_length_mismatch; eauto. reflexivity.
  - repeat split.
Qed.

(** C3, as the code has it: a body that is a JSON object with no "features"
    entry is read as the empty vector; when the metadata lists at least one
    feature the request gets the answer of a wrong-length vector (status 400
    with expected_features), the very answer an explicit empty vector gets. *)
Theorem missing_features_read_as_empty_vector
    (s : State) (request : Request) (classifier : Artifact)
    (items : list (string * json F)) (names : list (json F)) :
  model s = Some classifier ->
  get_json request = Ok (JObj items) ->
  dict_get "features" items = None ->
  py_getitem (model_meta s) Features = Ok (JArr names) ->
  names <> [] ->
  predict request s =
    (Ok (jsonify
           [("error", JStr ("Expected " ++ str_nat (List.length names) ++ " features, got 0"));
            ("expected_features", JArr names)]
           400), s) /\
  predict {| get_json := Ok (JObj [("features", JArr [])]) |} s = predict request s.
Proof.
  intros Hm Hd Hnone Hnames Hne.
  assert (Hlen : 0 <> List.length names) by (destruct names; simpl; congruence).
  assert (H1 : predict request s =
    (Ok (jsonify
           [("error", JStr ("Expected " ++ str_nat (List.length names) ++ " features, got 0"));
            ("expected_features", JArr names)]
           400), s)).
  { apply (predict_length_mismatch s request classifier (JObj items) (JArr []) (JArr names)
             0 (List.length names)); auto.
    simpl. rewrite Hnone. reflexivity. }
  split; [exact H1|]. rewrite H1.
  apply (predict_length_mismatch s _ classifier (JObj [("features", JArr [])]) (JArr [])
           (JArr names) 0 (List.length names)); auto.
Qed.

(** A parsed body that is not a JSON object has no [get] method: the
    AttributeError is answered by the catch-all handler. *)
Lemma non_object_body_is_server_error
    (s : State) (request : Request) (classifier : Artifact) (data : json F) :
  model s = Some classifier ->
  get_json request = Ok data ->
  (forall items, data <> JObj items) ->
  predict request s =
    (Ok (jsonify
           [("error", JStr ("'" ++ type_name data ++ "' object has no attribute 'get'"))]
           500), s).
Proof.
  intros Hm Hd Hobj. run. rewrite Hm, Hd. simpl.
  destruct data; try reflexivity.
  exfalso. eapply Hobj. reflexivity.
Qed.

(** ** Not loaded *)

(** C7: while [model] is None, scoring answers 503 "Model not loaded"; while
    [model_meta] is None, the feature-schema operation answers 503
    "Metadata not loaded" and returns no schema. *)
Theorem not_loaded_is_unavailable (s : State) (request : Request) :
  (model s = None ->
   predict request s = (Ok (jsonify [("error", JStr "Model not loaded")] 503), s)) /\
  (model_meta s = JNull ->
   get_features s = (Ok (jsonify [("error", JStr "Metadata not loaded")] 503), s)).
Proof.
  split; intros H; run; rewrite H; reflexivity.
Qed.

(** ** The handlers leave the globals as they are *)

Lemma health_keeps_state (s : State) : snd (health s) = s.
Proof. run. cases; reflexivity. Qed.

Lemma get_features_keeps_state (s : State) : snd (get_features s) = s.
Proof. run. cases; reflexivity. Qed.

Lemma predict_keeps_state (request : Request) (s : State) : snd (predict request s) = s.
Proof. run. cases; reflexivity. Qed.

(** Health, feature-schema introspection and scoring assign neither
    [model] nor [model_meta]: the globals after a handler are the globals
    before it. *)
Lemma handlers_do_not_mutate (s : State) (request : Request) :
  snd (health s) = s /\
  snd (get_features s) = s /\
  snd (predict request s) = s /\
  predict request (snd (predict request s)) = predict request s.
Proof.
  pose proof (predict_keeps_state request s) as H.
  repeat split; auto using health_keeps_state, get_features_keeps_state.
  rewrite H. reflexivity.
Qed.

(** ** Exceptions of the classifier *)

(** C8, as the code has it: an exception deriving from [Exception] that
    the classifier raises in [predict_proba] or in [predict] is caught and
    answered with status 500; the error text of the answer is [str(e)], the
    exception's own message.  What does not derive from [Exception]
    (KeyboardInterrupt, SystemExit) is not caught and leaves [predict].
    Either way the globals are untouched, so every later handler runs as it
    would have before. *)
Theorem classifier_exception_is_reported
    (s : State) (request : Request) (classifier : Artifact) (feature_array : ndarray)
    (e : exn) :
  reaches_classifier s request classifier feature_array ->
  (predict_proba classifier feature_array = Raise e \/
   exists probabilities fraud_probability,
     first_row (predict_proba classifier feature_array) = Ok probabilities /\
     fraud_probability_of probabilities = Ok fraud_probability /\
     predict_labels classifier feature_array = Raise e) ->
  (is_exception e = true ->
   predict request s = (Ok (jsonify [("error", JStr (str e))] 500), s)) /\
  (is_exception e = false -> predict request s = (Raise e, s)) /\
  forall (A : Type) (later : Prog A), later (snd (predict request s)) = later s.
Proof.
  intros Hreach Hraise.
  pose proof (predict_reaches _ _ _ _ Hreach) as Hrun.
  assert (Hcaught : predict request s = caught e s).
  { destruct Hraise as [Hp | (probabilities & fp & Hp & Hf & Hl)].
    - rewrite Hp in Hrun. exact Hrun.
    - rewrite Hp, Hf, Hl in Hrun. exact Hrun. }
  unfold caught in Hcaught.
  split; [|split].
  - intros He. rewrite He in Hcaught. exact Hcaught.
  - intros He. rewrite He in Hcaught. exact Hcaught.
  - intros A later. rewrite predict_keeps_state. reflexivity.
Qed.

(** ** Non-finite probabilities *)

(** C2, as the code has it: the values of the distribution are returned as
    the classifier gave them.  When a distribution of at least 2 entries
    holds a non-finite value, the answer is a success (status 200) whose
    probabilities list holds that value. *)
Theorem non_finite_probability_is_returned
    (s : State) (request : Request) (classifier : Artifact) (feature_array : ndarray)
    (probabilities : list F) (prediction : Z) (version : json F) (p : F) :
  reaches_classifier s request classifier feature_array ->
  first_row (predict_proba classifier feature_array) = Ok probabilities ->
  first_row (predict_labels classifier feature_array) = Ok prediction ->
  py_getitem (model_meta s) ModelVersion = Ok version ->
  2 <= List.length probabilities ->
  In p probabilities ->
  is_finite p = false ->
  exists r returned,
    predict request s = (Ok r, s) /\
    status r = 200 /\
    field "probabilities" r = Some (JArr returned) /\
    returned = map JFloat probabilities /\
    In (JFloat p) returned.
Proof.
  intros Hreach Hproba Hlabel Hversion Hlen Hin Hnf.
  pose proof (predict_reaches _ _ _ _ Hreach) as Hrun.
  rewrite Hproba, Hlabel, Hversion in Hrun.
  assert (Hfraud : exists fp, fraud_probability_of probabilities = Ok fp).
  { destruct probabilities as [|p0 [|p1 [|p2 rest]]]; simpl in Hlen; try lia.
    - eexists; apply fraud_probability_two.
    - eexists; apply fraud_probability_many. }
  destruct Hfraud as [fp Hfp]. rewrite Hfp in Hrun.
  eexists; exists (map JFloat probabilities).
  split; [exact Hrun|]. repeat split.
  apply in_map. exact Hin.
Qed.

(** ** Health *)

(** What a load that returned [True] has done. *)
Lemma load_model_true (files : Files) (s : State) :
  load_model files initial = (Ok true, s) ->
  exists unpickled items version,
    pickle_load files = Ok unpickled /\
    json_load files = Ok (JObj items) /\
    dict_get "model_version" items = Some version /\
    s = {| model := unpickled; model_meta := JObj items |}.
Proof.
  run.
  destruct (pickle_load files) as [unpickled|e]; simpl;
    [|destruct (is_exception e); discriminate].
  destruct (json_load files) as [meta|e]; simpl;
    [|destruct (is_exception e); discriminate].
  destruct meta as [ | | | | | |items]; simpl; try discriminate.
  destruct (dict_get "model_version" items) as [version|] eqn:Hv; simpl; [|discriminate].
  intros H. injection H as Hs.
  exists unpickled, items, version. repeat split; try assumption.
  symmetry. exact Hs.
Qed.

(** Health returns whenever the metadata is [None] or a dict, the only
    values it has in a state that is served. *)
Lemma health_answers (s : State) :
  model_meta s = JNull \/ (exists items, model_meta s = JObj items) ->
  exists r, health s = (Ok r, s).
Proof.
  intros [H | [items H]]; run; rewrite H; simpl.
  - eexists; reflexivity.
  - destruct items as [|[k v] items]; simpl; [eexists; reflexivity|].
    destruct (String.eqb k "model_version"); simpl; [eexists; reflexivity|].
    destruct (dict_get "model_version" items); eexists; reflexivity.
Qed.


(** ** Bounds on the fraud probability *)

Section Bounds.

Context {NA : NonnegAdd}.

(** The fraud probability of two or more non-negative entries is
    non-negative; of exactly two entries, it is the second. *)
Lemma fraud_probability_nonneg (probabilities : list F) :
  2 <= List.length probabilities ->
  Forall nonneg probabilities ->
  exists fp,
    fraud_probability_of probabilities = Ok fp /\
    nonneg fp /\
    (List.length probabilities = 2 -> nth_error probabilities 1 = Some fp).
Proof.
  intros Hlen Hall.
  destruct probabilities as [|p0 [|p1 [|p2 rest]]]; simpl in Hlen; try lia.
  - inversion Hall as [|? ? H0 Hall1]; subst. inversion Hall1 as [|? ? H1 _]; subst.
    exists p1. repeat split. exact H1.
  - inversion Hall as [|? ? H0 Hall1]; subst. inversion Hall1 as [|? ? H1 Hall2]; subst.
    inversion Hall2 as [|? ? H2 _]; subst.
    exists (fadd p1 p2). split; [reflexivity|]. split.
    + apply fadd_nonneg; assumption.
    + simpl. discriminate.
Qed.


End Bounds.

End Properties.

(** * The properties on concrete requests *)

(** A request with two floats reaches the classifier of [example_state]
    with the one-row array of these floats. *)
Lemma example_reaches {F : Type} {FO : FloatOps F} (classifier : @Artifact F (rows_numpy F))
    (x y : F) :
  reaches_classifier (example_state (rows_numpy F) classifier) (features_request [x; y])
    classifier [[x; y]].
Proof.
  apply (reaches_intro _ _ _ _
           (JObj [("features", JArr [JFloat x; JFloat y])])
           (JArr [JFloat x; JFloat y])
           (JArr [JStr "amount"; JStr "velocity"]) 2); reflexivity.
Defined.

(** ** Addition of non-negative floats *)

Section Binary64.

Local Open Scope Z_scope.

Lemma sfleb_zero (x : spec_float) :
  SFleb (S754_zero false) x = true <-> sf_nonneg x.
Proof.
  destruct x as [sign|sign| |sign m e]; simpl; unfold SFleb; simpl;
    try destruct sign; simpl;
    split; intros; try tauto; try discriminate; try reflexivity.
Qed.

Lemma shr_1_nonneg (mrs : shr_record) : 0 <= shr_m mrs -> 0 <= shr_m (shr_1 mrs).
Proof.
  destruct mrs as [m r sticky]. simpl. destruct m as [|p|p]; simpl; try lia.
  destruct p; simpl; lia.
Qed.

Lemma iter_pos_invariant {A : Type} (P : A -> Prop) (f : A -> A) :
  (forall x, P x -> P (f x)) -> forall n x, P x -> P (iter_pos f n x).
Proof.
  intros Hf. induction n; simpl; intros x Hx; auto.
Qed.

Lemma shr_nonneg (mrs : shr_record) (e n : Z) :
  0 <= shr_m mrs -> 0 <= shr_m (fst (shr mrs e n)).
Proof.
  intros H. unfold shr. destruct n; simpl; auto.
  apply (iter_pos_invariant (fun r => 0 <= shr_m r)); auto using shr_1_nonneg.
Qed.

Lemma shr_fexp_nonneg (prec emax m e : Z) (l : location) :
  0 <= m -> 0 <= shr_m (fst (shr_fexp prec emax m e l)).
Proof.
  intros H. unfold shr_fexp. apply shr_nonneg.
  destruct l as [|[ | | ]]; exact H.
Qed.

Lemma round_nearest_even_nonneg (m : Z) (l : location) :
  0 <= m -> 0 <= round_nearest_even m l.
Proof.
  intros H. destruct l as [|[ | | ]]; simpl; try lia.
  destruct (Z.even m); lia.
Qed.

(** Rounding a non-negative significand without sign gives a zero, a
    finite value without sign or plus infinity. *)
Lemma binary_round_aux_nonneg (prec emax m e : Z) (l : location) :
  0 <= m -> sf_nonneg (binary_round_aux prec emax false m e l).
Proof.
  intros H. unfold binary_round_aux.
  pose proof (shr_fexp_nonneg prec emax m e l H) as H1.
  destruct (shr_fexp prec emax m e l) as [mrs1 e1]. simpl in H1.
  pose proof (shr_fexp_nonneg prec emax _ e1 loc_Exact
                (round_nearest_even_nonneg _ (loc_of_shr_record mrs1) H1)) as H2.
  destruct (shr_fexp prec emax (round_nearest_even (shr_m mrs1) (loc_of_shr_record mrs1))
              e1 loc_Exact) as [mrs2 e2].
  simpl in H2.
  destruct (shr_m mrs2) as [|p|p]; simpl;
    [exact I | destruct (e2 <=? emax - prec); reflexivity | lia].
Qed.

Lemma binary_normalize_nonneg (prec emax m e : Z) :
  0 <= m -> sf_nonneg (binary_normalize prec emax m e false).
Proof.
  intros H. destruct m as [|p|p]; simpl; auto; [|lia].
  unfold binary_round.
  destruct (shl_align p e (fexp prec emax (Z.pos (digits2_pos p) + e))) as [mz ez].
  apply binary_round_aux_nonneg. lia.
Qed.

Lemma SFadd_nonneg (prec emax : Z) (x y : spec_float) :
  sf_nonneg x -> sf_nonneg y -> sf_nonneg (SFadd prec emax x y).
Proof.
  destruct x as [sx|sx| |sx mx ex], y as [sy|sy| |sy my ey]; simpl; intros Hx Hy;
    subst; try tauto; try reflexivity.
  - destruct sx, sy; exact I.
  - apply binary_normalize_nonneg. simpl. lia.
Qed.

End Binary64.

(** In binary64 the sum of two values that are not below zero is not below
    zero. *)
Lemma binary64_add_nonneg (x y : float) :
  PrimFloat.leb 0 x = true -> PrimFloat.leb 0 y = true ->
  PrimFloat.leb 0 (PrimFloat.add x y) = true.
Proof.
  rewrite !leb_spec, add_spec.
  change (Prim2SF 0) with (S754_zero false).
  rewrite !sfleb_zero. apply SFadd_nonneg.
Qed.

Lemma binary64_nonneg_add : @NonnegAdd float binary64.
Proof.
  split. unfold nonneg. simpl. exact binary64_add_nonneg.
Defined.

Lemma exact_nonneg_add : @NonnegAdd Q exact.
Proof.
  split. unfold nonneg. simpl. intros x y Hx Hy.
  apply Qle_bool_iff in Hx. apply Qle_bool_iff in Hy. apply Qle_bool_iff. lra.
Defined.

(** The binary rule and the multi-class rule on the two classifiers. *)
Lemma fraud_probability_by_entry_count_witness :
  (exists r p1,
     predict example_request (example_state _ binary_classifier)
       = (Ok r, example_state _ binary_classifier) /\
     status r = 200 /\
     nth_error [0.75; 0.25]%float 1 = Some p1 /\
     field "fraud_probability" r = Some (JFloat p1)) /\
  (exists r p1 p2,
     predict example_request (example_state _ three_class_classifier)
       = (Ok r, example_state _ three_class_classifier) /\
     status r = 200 /\
     nth_error [0.5; 0.25; 0.25]%float 1 = Some p1 /\
     nth_error [0.5; 0.25; 0.25]%float 2 = Some p2 /\
     field "fraud_probability" r = Some (JFloat (fadd p1 p2))).
Proof.
  split.
  - apply (proj1 (fraud_probability_by_entry_count
                    (example_state _ binary_classifier) example_request binary_classifier
                    [[1; 2]]%float [0.75; 0.25]%float 0 (JStr "xgb-1.0")
                    (example_reaches _ _ _) eq_refl eq_refl eq_refl)).
    reflexivity.
  - apply (proj2 (fraud_probability_by_entry_count
                    (example_state _ three_class_classifier) example_request
                    three_class_classifier
                    [[1; 2]]%float [0.5; 0.25; 0.25]%float 1 (JStr "xgb-1.0")
                    (example_reaches _ _ _) eq_refl eq_refl eq_refl)).
    simpl. lia.
Defined.

(** The three-class answer, computed. *)
Example three_class_answer :
  fst (predict example_request (example_state _ three_class_classifier)) =
    Ok {| body := JObj [("fraud_probability", JFloat 0.5%float);
                        ("prediction", JInt 1);
                        ("probabilities", JArr [JFloat 0.5%float; JFloat 0.25%float;
                                                JFloat 0.25%float]);
                        ("model_version", JStr "xgb-1.0")];
          status := 200 |}.
Proof. reflexivity. Qed.

(** ** A distribution holding NaN *)

(** C2 fails on a distribution holding NaN: the request is answered with
    success and NaN in the body, not with an InvalidPrediction failure. *)
Lemma nan_is_returned_as_success :
  predict example_request (example_state _ nan_classifier) =
    (Ok {| body := JObj [("fraud_probability", JFloat PrimFloat.nan);
                         ("prediction", JInt 1);
                         ("probabilities", JArr [JFloat 0.5%float; JFloat PrimFloat.nan]);
                         ("model_version", JStr "xgb-1.0")];
           status := 200 |},
     example_state _ nan_classifier) /\
  is_finite PrimFloat.nan = false.
Proof. split; reflexivity. Qed.

(** The same request, through the general statement. *)
Lemma non_finite_probability_is_returned_witness :
  exists r returned,
    predict example_request (example_state _ nan_classifier)
      = (Ok r, example_state _ nan_classifier) /\
    status r = 200 /\
    field "probabilities" r = Some (JArr returned) /\
    returned = map JFloat [0.5%float; PrimFloat.nan] /\
    In (JFloat PrimFloat.nan) returned.
Proof.
  apply (non_finite_probability_is_returned
           (example_state _ nan_classifier) example_request nan_classifier
           [[1; 2]]%float [0.5%float; PrimFloat.nan] 1 (JStr "xgb-1.0") PrimFloat.nan
           (example_reaches _ _ _) eq_refl eq_refl eq_refl).
  - simpl. lia.
  - simpl. right. left. reflexivity.
  - reflexivity.
Defined.

(** ** A body without a feature vector *)

(** C3 fails on the body [{}]: it gets the answer of a wrong-length vector,
    the one the empty vector gets, and no failure of its own. *)
Lemma missing_features_answered_as_wrong_length :
  predict empty_body_request (example_state _ binary_classifier) =
    (Ok {| body := JObj [("error", JStr "Expected 2 features, got 0");
                         ("expected_features", JArr [JStr "amount"; JStr "velocity"])];
           status := 400 |},
     example_state _ binary_classifier) /\
  predict (features_request []) (example_state _ binary_classifier) =
    predict empty_body_request (example_state _ binary_classifier).
Proof. split; reflexivity. Qed.

(** The same body, through the general statement. *)
Lemma missing_features_read_as_empty_vector_witness :
  predict empty_body_request (example_state _ binary_classifier) =
    (Ok (jsonify
           [("error", JStr ("Expected " ++ str_nat 2 ++ " features, got 0"));
            ("expected_features", JArr [JStr "amount"; JStr "velocity"])]
           400), example_state _ binary_classifier) /\
  predict {| get_json := Ok (JObj [("features", JArr [])]) |}
    (example_state _ binary_classifier) =
    predict empty_body_request (example_state _ binary_classifier).
Proof.
  apply (missing_features_read_as_empty_vector
           (example_state _ binary_classifier) empty_body_request binary_classifier
           [] [JStr "amount"; JStr "velocity"]); try reflexivity.
  discriminate.
Defined.

(** ** A vector of the wrong length *)

(** One float where the metadata lists two features. *)
Lemma wrong_length_echoes_expected_features_witness :
  exists r,
    predict (features_request [1%float]) (example_state _ binary_classifier)
      = (Ok r, example_state _ binary_classifier) /\
    status r = 400 /\
    field "expected_features" r = Some (JArr [JStr "amount"; JStr "velocity"]) /\
    field "error" r = Some (JStr "Expected 2 features, got 1").
Proof.
  apply (wrong_length_echoes_expected_features
           (example_state _ binary_classifier) (features_request [1%float]) binary_classifier
           (JObj [("features", JArr [JFloat 1%float])]) (JArr [JFloat 1%float])
           [JStr "amount"; JStr "velocity"] 1); try reflexivity.
  simpl. lia.
Defined.

(** ** Bounds *)



(** The distribution [0.7, 0.2, 0.1]: the exact sum of the last two entries
    is 0.3; binary64 rounds 0.2 + 0.1 to the float next above 0.3. *)
Example seven_two_one_exact :
  exists fp,
    fraud_probability_of [7 # 10; 2 # 10; 1 # 10]%Q = Ok fp /\ Qeq fp (3 # 10).
Proof. eexists. split; reflexivity. Qed.

Example seven_two_one_binary64 :
  fraud_probability_of [0.7; 0.2; 0.1]%float = Ok 0.30000000000000004%float /\
  feqb 0.30000000000000004%float 0.3%float = false.
Proof. split; reflexivity. Qed.

(** ** Health before and after a load *)



(** A load that fails leaves no state to serve: the process exits. *)
Example main_without_metadata :
  main {| pickle_load := Ok (Some binary_classifier);
          json_load := Raise (Raised "No such file") |}
  = None.
Proof. reflexivity. Qed.

(** ** Not loaded *)

(** Scoring and the feature schema in the initial state. *)
Lemma not_loaded_is_unavailable_witness :
  predict (NP := rows_numpy float) example_request initial =
    (Ok (jsonify [("error", JStr "Model not loaded")] 503), initial) /\
  get_features (NP := rows_numpy float) initial =
    (Ok (jsonify [("error", JStr "Metadata not loaded")] 503), initial).
Proof.
  exact (conj (proj1 (not_loaded_is_unavailable initial example_request) eq_refl)
              (proj2 (not_loaded_is_unavailable initial example_request) eq_refl)).
Defined.

(** ** A classifier that raises *)

(** C8 fails on the message: the error text of the answer is the text of
    the exception, so two exceptions give two answers and the message is not
    a generic one. *)
Lemma exception_text_is_returned :
  fst (predict example_request (example_state _ shape_error_classifier)) =
    Ok {| body := JObj [("error", JStr "Feature shape mismatch, expected: 9, got 2")];
          status := 500 |} /\
  fst (predict example_request (example_state _ memory_error_classifier)) =
    Ok {| body := JObj [("error", JStr "std::bad_alloc")]; status := 500 |} /\
  fst (predict example_request (example_state _ shape_error_classifier)) <>
  fst (predict example_request (example_state _ memory_error_classifier)).
Proof. repeat split; try reflexivity. discriminate. Qed.

(** The first of the two classifiers, and an interrupted one, through the
    general statement. *)
Lemma classifier_exception_is_reported_witness :
  predict example_request (example_state _ shape_error_classifier) =
    (Ok (jsonify [("error", JStr (str (Raised shape_error)))] 500),
     example_state _ shape_error_classifier) /\
  predict example_request (example_state _ interrupted_classifier) =
    (Raise (BaseRaised "KeyboardInterrupt"), example_state _ interrupted_classifier).
Proof.
  split.
  - apply (proj1 (classifier_exception_is_reported
                    (example_state _ shape_error_classifier) example_request
                    shape_error_classifier [[1; 2]]%float (Raised shape_error)
                    (example_reaches _ _ _) (or_introl eq_refl))).
    reflexivity.
  - apply (proj1 (proj2 (classifier_exception_is_reported
                    (example_state _ interrupted_classifier) example_request
                    interrupted_classifier [[1; 2]]%float (BaseRaised "KeyboardInterrupt")
                    (example_reaches _ _ _) (or_introl eq_refl)))).
    reflexivity.
Defined.

(** ** A distribution with one entry *)

(** A distribution of one entry. *)
Lemma short_distribution_is_server_error_witness :
  exists e,
    np_index [1%float] 1 = Raise e /\
    e = IndexError ("index 1 is out of bounds for axis 0 with size " ++ str_nat 1) /\
    predict example_request (example_state _ one_class_classifier) =
      (Ok (jsonify [("error", JStr (str e))] 500), example_state _ one_class_classifier).
Proof.
  apply (short_distribution_is_server_error
           (example_state _ one_class_classifier) example_request one_class_classifier
           [[1; 2]]%float [1%float] (example_reaches _ _ _) eq_refl).
  simpl. lia.
Defined.

(** The answer to the one-entry distribution, computed. *)
Example one_class_answer :
  fst (predict example_request (example_state _ one_class_classifier)) =
    Ok {| body := JObj [("error", JStr "index 1 is out of bounds for axis 0 with size 1")];
          status := 500 |}.
Proof. reflexivity. Qed.

(** * Further properties of the service *)

Section Outcomes.

Context {F : Type} {FO : FloatOps F} {NP : Numpy F}.

(** A fraud probability is computed only for two entries or more. *)
Lemma fraud_probability_needs_two (probabilities : list F) (fp : F) :
  fraud_probability_of probabilities = Ok fp -> 2 <= List.length probabilities.
Proof.
  destruct probabilities as [|p0 [|p1 rest]]; simpl; try discriminate.
  intros _. lia.
Qed.

(** What was raised and caught is answered with status 500; what was
    raised and not caught leaves the handler. *)
Lemma caught_outcome (e : exn) (s : State) :
  (is_exception e = true /\
   caught e s = (Ok (jsonify [("error", JStr (str e))] 500), s)) \/
  (is_exception e = false /\ caught e s = (Raise e, s)).
Proof.
  unfold caught. destruct (is_exception e); [left|right]; split; reflexivity.
Qed.

(** The four ways [predict] ends: not loaded; something raised inside the
    [try]; a vector of the wrong length; a score. *)
Lemma predict_outcome (request : Request) (s : State) :
  (model s = None /\
   predict request s = (Ok (jsonify [("error", JStr "Model not loaded")] 503), s)) \/
  (exists e,
     model s <> None /\
     predict request s = caught e s) \/
  (exists data features names got expected,
     model s <> None /\ got <> expected /\
     get_json request = Ok data /\
     py_get data "features" (JArr []) = Ok features /\
     py_len features = Ok got /\
     py_getitem (model_meta s) Features = Ok names /\
     py_len names = Ok expected /\
     predict request s =
       (Ok (jsonify
              [("error", JStr ("Expected " ++ str_nat expected ++ " features, got "
                               ++ str_nat got));
               ("expected_features", names)]
              400), s)) \/
  (exists classifier feature_array probabilities fraud_probability prediction version,
     reaches_classifier s request classifier feature_array /\
     first_row (predict_proba classifier feature_array) = Ok probabilities /\
     fraud_probability_of probabilities = Ok fraud_probability /\
     first_row (predict_labels classifier feature_array) = Ok prediction /\
     py_getitem (model_meta s) ModelVersion = Ok version /\
     predict request s =
       (Ok (jsonify
              [("fraud_probability", JFloat (py_float fraud_probability));
               ("prediction", JInt (py_int prediction));
               ("probabilities", JArr (map (fun p => JFloat (py_float p)) probabilities));
               ("model_version", version)]
              200), s)).
Proof.
  destruct (model s) as [classifier|] eqn:Hm.
  2:{ left. split; [reflexivity|]. run. rewrite Hm. reflexivity. }
  right.
  assert (Hsome : Some classifier <> None) by discriminate.
  destruct (get_json request) as [data|e] eqn:Hd.
  2:{ left. exists e. split; [exact Hsome|]. unfold caught. run. rewrite Hm, Hd. simpl.
      destruct (is_exception e); reflexivity. }
  destruct (py_get data "features" (JArr [])) as [features|e] eqn:Hf.
  2:{ left. exists e. split; [exact Hsome|]. unfold caught. run. rewrite Hm, Hd. simpl.
      rewrite Hf. simpl. destruct (is_exception e); reflexivity. }
  destruct (py_len features) as [got|e] eqn:Hgot.
  2:{ left. exists e. split; [exact Hsome|]. unfold caught. run. rewrite Hm, Hd. simpl.
      rewrite Hf. simpl. rewrite Hgot. simpl. destruct (is_exception e); reflexivity. }
  destruct (py_getitem (model_meta s) Features) as [names|e] eqn:Hnames.
  2:{ left. exists e. split; [exact Hsome|]. unfold caught. run. rewrite Hm, Hd. simpl.
      rewrite Hf. simpl. rewrite Hgot. simpl. rewrite Hnames. simpl.
      destruct (is_exception e); reflexivity. }
  destruct (py_len names) as [expected|e] eqn:Hexp.
  2:{ left. exists e. split; [exact Hsome|]. unfold caught. run. rewrite Hm, Hd. simpl.
      rewrite Hf. simpl. rewrite Hgot. simpl. rewrite Hnames. simpl. rewrite Hexp. simpl.
      destruct (is_exception e); reflexivity. }
  destruct (Nat.eq_dec got expected) as [Heq|Hne].
  2:{ right. left. exists data, features, names, got, expected.
      repeat (split; [solve [auto]|]).
      eapply predict_length_mismatch; eauto. }
  subst expected.
  destruct (np_array (JArr [features])) as [feature_array|e] eqn:Harr.
  2:{ left. exists e. split; [exact Hsome|]. unfold caught. run. rewrite Hm, Hd. simpl.
      rewrite Hf. simpl. rewrite Hgot. simpl. rewrite Hnames. simpl. rewrite Hexp. simpl.
      rewrite Nat.eqb_refl. simpl. rewrite Harr. simpl.
      destruct (is_exception e); reflexivity. }
  assert (Hreach : reaches_classifier s request classifier feature_array)
    by (econstructor; eauto).
  pose proof (predict_reaches _ _ _ _ Hreach) as Hrun.
  destruct (first_row (predict_proba classifier feature_array)) as [probabilities|e] eqn:Hp.
  2:{ left. exists e. split; [exact Hsome|exact Hrun]. }
  destruct (fraud_probability_of probabilities) as [fp|e] eqn:Hfp.
  2:{ left. exists e. split; [exact Hsome|exact Hrun]. }
  destruct (first_row (predict_labels classifier feature_array)) as [prediction|e] eqn:Hl.
  2:{ left. exists e. split; [exact Hsome|exact Hrun]. }
  destruct (py_getitem (model_meta s) ModelVersion) as [version|e] eqn:Hv.
  2:{ left. exists e. split; [exact Hsome|exact Hrun]. }
  right. right.
  exists classifier, feature_array, probabilities, fp, prediction, version.
  repeat split; assumption.
Qed.

(** What [predict] answers, when it answers: the outcomes of
    [predict_outcome] with an answer. *)
Lemma predict_answer (request : Request) (s : State) (r : Response) :
  fst (predict request s) = Ok r ->
  (model s = None /\ r = jsonify [("error", JStr "Model not loaded")] 503) \/
  (exists e, model s <> None /\ r = jsonify [("error", JStr (str e))] 500) \/
  (exists data features names got expected,
     model s <> None /\ got <> expected /\
     get_json request = Ok data /\
     py_get data "features" (JArr []) = Ok features /\
     py_len features = Ok got /\
     py_getitem (model_meta s) Features = Ok names /\
     py_len names = Ok expected /\
     r = jsonify
           [("error", JStr ("Expected " ++ str_nat expected ++ " features, got "
                            ++ str_nat got));
            ("expected_features", names)]
           400) \/
  (exists classifier feature_array probabilities fraud_probability prediction version,
     reaches_classifier s request classifier feature_array /\
     first_row (predict_proba classifier feature_array) = Ok probabilities /\
     fraud_probability_of probabilities = Ok fraud_probability /\
     first_row (predict_labels classifier feature_array) = Ok prediction /\
     py_getitem (model_meta s) ModelVersion = Ok version /\
     r = jsonify
           [("fraud_probability", JFloat fraud_probability);
            ("prediction", JInt prediction);
            ("probabilities", JArr (map JFloat probabilities));
            ("model_version", version)]
           200).
Proof.
  intros Hr.
  destruct (predict_outcome request s)
    as [[Hm H] | [(e & Hm & H)
       | [(data & features & names & got & expected & Hm & Hne & Hd & Hf & Hg & Hn & He & H)
       | (c & arr & ps & fp & lab & v & Hreach & Hp & Hfp & Hl & Hv & H)]]];
    rewrite H in Hr.
  - left. injection Hr as <-. split; [exact Hm|reflexivity].
  - right. left. exists e. split; [exact Hm|].
    destruct (caught_outcome e s) as [[_ Hc] | [_ Hc]]; rewrite Hc in Hr.
    + injection Hr as <-. reflexivity.
    + discriminate Hr.
  - right. right. left. exists data, features, names, got, expected.
    injection Hr as <-. repeat (split; [assumption|]). reflexivity.
  - right. right. right. exists c, arr, ps, fp, lab, v.
    injection Hr as <-. repeat (split; [assumption|]). reflexivity.
Qed.

(** X1: [predict] leaves the globals as they were, and either answers, with
    status 200, 400, 500 or 503 (503 exactly when no model is loaded), or
    lets through what was raised inside its [try] and is not an
    [Exception]; the latter only with a model loaded. *)
Theorem predict_answers_or_propagates (request : Request) (s : State) :
  snd (predict request s) = s /\
  ((exists r,
      fst (predict request s) = Ok r /\
      (status r = 200 \/ status r = 400 \/ status r = 500 \/ status r = 503) /\
      (status r = 503 <-> model s = None)) \/
   (exists e,
      fst (predict request s) = Raise e /\
      is_exception e = false /\
      model s <> None)).
Proof.
  split; [apply predict_keeps_state|].
  destruct (predict_outcome request s)
    as [[Hm H] | [(e & Hm & H)
       | [(data & features & names & got & expected & Hm & _ & _ & _ & _ & _ & _ & H)
       | (c & arr & ps & fp & lab & v & Hreach & _ & _ & _ & _ & H)]]].
  - left. eexists. rewrite H. split; [reflexivity|]. simpl. split; [auto|]. split; auto.
  - destruct (caught_outcome e s) as [[_ Hc] | [He Hc]]; rewrite Hc in H.
    + left. eexists. rewrite H. split; [reflexivity|]. simpl.
      split; [auto|]. split; [discriminate|contradiction].
    + right. exists e. rewrite H. repeat split; assumption.
  - left. eexists. rewrite H. split; [reflexivity|]. simpl.
    split; [auto|]. split; [discriminate|contradiction].
  - left. eexists. rewrite H. split; [reflexivity|]. simpl.
    split; [auto|]. split; [discriminate|].
    destruct Hreach as [? ? ? ? Hmodel]. rewrite Hmodel. discriminate.
Qed.

(** X2: a success answer is complete: status 200 is given only to a request that
    reached the classifier, for a distribution of two entries or more, and
    the body then carries the fraud probability of that distribution, the
    label the classifier predicted for the same array, the distribution
    itself and the version of the metadata. *)
Theorem success_answer_is_complete (request : Request) (s : State) (r : Response) :
  fst (predict request s) = Ok r ->
  status r = 200 ->
  exists classifier feature_array probabilities fraud_probability prediction version,
    reaches_classifier s request classifier feature_array /\
    first_row (predict_proba classifier feature_array) = Ok probabilities /\
    2 <= List.length probabilities /\
    fraud_probability_of probabilities = Ok fraud_probability /\
    first_row (predict_labels classifier feature_array) = Ok prediction /\
    py_getitem (model_meta s) ModelVersion = Ok version /\
    body r = JObj [("fraud_probability", JFloat fraud_probability);
                   ("prediction", JInt prediction);
                   ("probabilities", JArr (map JFloat probabilities));
                   ("model_version", version)].
Proof.
  intros Hr Hstatus.
  destruct (predict_answer request s r Hr)
    as [[_ ->] | [(e & _ & ->)
       | [(data & features & names & got & expected & _ & _ & _ & _ & _ & _ & _ & ->)
       | (c & arr & ps & fp & lab & v & Hreach & Hp & Hfp & Hl & Hv & ->)]]];
    simpl in Hstatus; try discriminate.
  exists c, arr, ps, fp, lab, v.
  repeat split; try assumption.
  eapply fraud_probability_needs_two; eassumption.
Qed.

(** X3: a body that cannot be read is answered with status 500 and the text of
    the exception, not with a 4xx status. *)
Theorem malformed_body_is_server_error
    (s : State) (request : Request) (classifier : Artifact) (e : exn) :
  model s = Some classifier ->
  malformed request e ->
  predict request s = (Ok (jsonify [("error", JStr (str e))] 500), s).
Proof.
  intros Hm Hbad. run. rewrite Hm.
  destruct Hbad as [e Hd He | data Hd Hobj | items features Hd Hf Hlen].
  - rewrite Hd. simpl. rewrite He. reflexivity.
  - rewrite Hd. simpl.
    destruct data; try reflexivity. exfalso. eapply Hobj. reflexivity.
  - rewrite Hd. simpl. rewrite Hf. simpl.
    destruct Hlen as [-> | [[b ->] | [[z ->] | [x ->]]]]; reflexivity.
Qed.

(** X4: a classifier that returns no row, or no label, is answered with status
    500 and numpy's IndexError for index 0. *)
Theorem empty_output_is_server_error
    (s : State) (request : Request) (classifier : Artifact) (feature_array : ndarray) :
  reaches_classifier s request classifier feature_array ->
  (predict_proba classifier feature_array = Ok [] \/
   exists probabilities fraud_probability,
     first_row (predict_proba classifier feature_array) = Ok probabilities /\
     fraud_probability_of probabilities = Ok fraud_probability /\
     predict_labels classifier feature_array = Ok []) ->
  predict request s =
    (Ok (jsonify [("error", JStr "index 0 is out of bounds for axis 0 with size 0")] 500), s).
Proof.
  intros Hreach Hempty.
  pose proof (predict_reaches _ _ _ _ Hreach) as Hrun.
  destruct Hempty as [Hp | (ps & fp & Hp & Hfp & Hl)].
  - rewrite Hp in Hrun. exact Hrun.
  - rewrite Hp, Hfp, Hl in Hrun. exact Hrun.
Qed.

(** X5: the feature list that [get_features] publishes is the list [predict]
    checks against: with a model loaded, a JSON array is refused with
    status 400 exactly when its length is not the length of the published
    list. *)
Theorem published_length_decides_refusal
    (s : State) (request : Request) (classifier : Artifact) (published : Response)
    (names values : list (json F)) (data : json F) :
  fst (get_features s) = Ok published ->
  field "features" published = Some (JArr names) ->
  model s = Some classifier ->
  get_json request = Ok data ->
  py_get data "features" (JArr []) = Ok (JArr values) ->
  (exists r, predict request s = (Ok r, s) /\ status r = 400) <->
  List.length values <> List.length names.
Proof.
  intros Hpub Hfield Hm Hd Hf.
  assert (Hnames : py_getitem (model_meta s) Features = Ok (JArr names)).
  { revert Hpub Hfield. run.
    destruct (model_meta s) as [ | b | z | x | text | l | items] eqn:Hmeta; simpl;
      intros H1 H2.
    1:{ injection H1 as Hp. rewrite <- Hp in H2. discriminate H2. }
    1-5: discriminate H1.
    destruct (dict_get "features" items) as [fs|]; simpl in *; [|discriminate H1].
    destruct (dict_get "model_version" items); simpl in *; [|discriminate H1].
    destruct (dict_get "block_threshold" items); simpl in *;
      destruct (dict_get "roc_auc" items); simpl in *;
      destruct (dict_get "pr_auc" items); simpl in *.
    all: injection H1 as Hp; rewrite <- Hp in H2; unfold field in H2; simpl in H2;
      injection H2 as Hfs; rewrite Hfs; reflexivity. }
  split.
  - intros (r & Hr & H400) Heq.
    assert (Hfst : fst (predict request s) = Ok r) by (rewrite Hr; reflexivity).
    destruct (predict_answer request s r Hfst)
      as [[_ ->] | [(e & _ & ->)
         | [(data' & fv & names' & got & expected & _ & Hne & Hd' & Hf' & Hg & Hn' & He & ->)
         | (c & arr & ps & fp & lab & v & _ & _ & _ & _ & _ & ->)]]];
      simpl in H400; try discriminate.
    apply Hne.
    rewrite Hd in Hd'. injection Hd' as Hdata. subst data'.
    rewrite Hf in Hf'. injection Hf' as Hfv. subst fv.
    rewrite Hnames in Hn'. injection Hn' as Hnm. subst names'.
    simpl in Hg, He. congruence.
  - intros Hne. eexists. split.
    + eapply predict_length_mismatch; eauto; reflexivity.
    + reflexivity.
Qed.

End Outcomes.

Section Loading.

Context {F : Type} {FO : FloatOps F} {NP : Numpy F}.

(** What [except Exception] of [load_model] makes of a raised [e] in state
    [s]: [False], or [e] itself when it is not an [Exception]. *)
Lemma load_model_run (files : Files) (s : State) :
  load_model files s =
    match pickle_load files with
    | Raise e => (if is_exception e then Ok false else Raise e, s)
    | Ok unpickled =>
        match json_load files with
        | Raise e =>
            (if is_exception e then Ok false else Raise e,
             {| model := unpickled; model_meta := model_meta s |})
        | Ok meta =>
            match py_getitem meta ModelVersion with
            | Raise _ => (Ok false, {| model := unpickled; model_meta := meta |})
            | Ok _ => (Ok true, {| model := unpickled; model_meta := meta |})
            end
        end
    end.
Proof.
  run.
  destruct (pickle_load files) as [unpickled|e]; simpl;
    [|destruct (is_exception e); reflexivity].
  destruct (json_load files) as [meta|e]; simpl;
    [|destruct (is_exception e); reflexivity].
  destruct meta as [ | | | | | |items]; simpl; try reflexivity.
  destruct (dict_get "model_version" items); reflexivity.
Qed.

(** X6: [load_model] returns [True] exactly when the model file unpickles
    (to whatever object, [None] included) and the metadata file parses to a
    dict that has the key model_version; nothing else of the metadata is
    looked at.  It raises only what one of the two reads raised and is not
    an [Exception]. *)
Theorem load_model_succeeds_iff (files : Files) (s : State) :
  (fst (load_model files s) = Ok true <->
   exists unpickled items version,
     pickle_load files = Ok unpickled /\
     json_load files = Ok (JObj items) /\
     dict_get "model_version" items = Some version) /\
  (forall e,
     fst (load_model files s) = Raise e ->
     is_exception e = false /\
     (pickle_load files = Raise e \/ json_load files = Raise e)).
Proof.
  rewrite load_model_run.
  destruct (pickle_load files) as [unpickled|e0] eqn:Hp.
  2:{ split.
      - split.
        + simpl. destruct (is_exception e0); discriminate.
        + intros (u & items & v & H & _). discriminate H.
      - simpl. intros e He. destruct (is_exception e0) eqn:Hex; [discriminate He|].
        injection He as <-. split; [exact Hex|left; reflexivity]. }
  destruct (json_load files) as [meta|e0] eqn:Hj.
  2:{ split.
      - split.
        + simpl. destruct (is_exception e0); discriminate.
        + intros (u & items & v & _ & H & _). discriminate H.
      - simpl. intros e He. destruct (is_exception e0) eqn:Hex; [discriminate He|].
        injection He as <-. split; [exact Hex|right; reflexivity]. }
  destruct (py_getitem meta ModelVersion) as [version|e0] eqn:Hv.
  - split; [|discriminate]. split; [|reflexivity].
    intros _. destruct meta as [ | | | | | |items]; simpl in Hv; try discriminate.
    destruct (dict_get "model_version" items) as [v|] eqn:Hg; [|discriminate].
    exists unpickled, items, v. repeat split. exact Hg.
  - split; [|discriminate]. split; [discriminate|].
    intros (u & items & v & _ & H & Hg). injection H as ->.
    simpl in Hv. rewrite Hg in Hv. discriminate Hv.
Qed.

(** X7: a load that fails is not undone: the state it leaves is the state
    before when the model file failed; it has the unpickled object and the old
    metadata when the metadata file failed; and it has the unpickled object
    and the new metadata when only the version was missing. *)
Theorem failed_load_keeps_assignments (files : Files) (s s' : State) :
  load_model files s = (Ok false, s') ->
  (exists e, pickle_load files = Raise e /\ s' = s) \/
  (exists unpickled e,
     pickle_load files = Ok unpickled /\ json_load files = Raise e /\
     s' = {| model := unpickled; model_meta := model_meta s |}) \/
  (exists unpickled meta e,
     pickle_load files = Ok unpickled /\ json_load files = Ok meta /\
     py_getitem meta ModelVersion = Raise e /\
     s' = {| model := unpickled; model_meta := meta |}).
Proof.
  rewrite load_model_run.
  destruct (pickle_load files) as [unpickled|e] eqn:Hp.
  2:{ intros H. injection H as _ Hs. left. exists e. split; [reflexivity|].
      symmetry. exact Hs. }
  destruct (json_load files) as [meta|e] eqn:Hj.
  2:{ intros H. injection H as _ Hs. right. left. exists unpickled, e.
      repeat split. symmetry. exact Hs. }
  destruct (py_getitem meta ModelVersion) as [version|e] eqn:Hv.
  - discriminate.
  - intros H. injection H as Hs. right. right. exists unpickled, meta, e.
    repeat split; try assumption. symmetry. exact Hs.
Qed.

(** X8: when the model file loads and the metadata file does not, [load_model]
    returns [False] (or lets through what [json.load] raised, when that is
    not an [Exception]) and [main] serves nothing; in the state that load
    left, health answers UP with model_loaded true and a null version. *)
Theorem health_is_up_after_metadata_failure
    (files : Files) (classifier : Artifact) (e : exn) :
  pickle_load files = Ok (Some classifier) ->
  json_load files = Raise e ->
  exists s',
    load_model files initial = (if is_exception e then Ok false else Raise e, s') /\
    main files = None /\
    health s' =
      (Ok (jsonify [("status", JStr "UP"); ("model_loaded", JBool true);
                    ("model_version", JNull)] 200), s').
Proof.
  intros Hp Hj.
  exists {| model := Some classifier; model_meta := JNull |}.
  assert (Hload : load_model files initial =
                  (if is_exception e then Ok false else Raise e,
                   {| model := Some classifier; model_meta := JNull |})).
  { rewrite load_model_run, Hp, Hj. reflexivity. }
  split; [exact Hload|]. split; [|reflexivity].
  unfold main. rewrite Hload. destruct (is_exception e); reflexivity.
Qed.

(** X9: a load that succeeds replaces both globals whatever they were: the
    state it leaves depends on the files only, and loading the same files
    again changes nothing. *)
Theorem load_model_overwrites (files : Files) (s s' : State) :
  load_model files s = (Ok true, s') ->
  (forall s0, load_model files s0 = (Ok true, s')) /\
  load_model files s' = (Ok true, s').
Proof.
  rewrite load_model_run. intros H.
  assert (Hall : forall s0, load_model files s0 = (Ok true, s')).
  { intros s0. rewrite load_model_run.
    destruct (pickle_load files) as [unpickled|e];
      [|destruct (is_exception e); discriminate].
    destruct (json_load files) as [meta|e];
      [|destruct (is_exception e); discriminate].
    destruct (py_getitem meta ModelVersion); [|discriminate].
    exact H. }
  split; [exact Hall|apply Hall].
Qed.

(** X10: the metadata file is read only after the model file: in every
    state a load from the initial state can leave, whether the load
    returned or raised, metadata is present only if the model file
    unpickled, and [model] is then what the file held.  So where the
    metadata is present and no model is, the file held a pickled [None]. *)
Theorem metadata_implies_unpickled (files : Files) (s : State) :
  snd (load_model files initial) = s ->
  model_meta s <> JNull ->
  exists unpickled,
    pickle_load files = Ok unpickled /\
    model s = unpickled /\
    json_load files = Ok (model_meta s) /\
    (model s = None -> pickle_load files = Ok None).
Proof.
  rewrite load_model_run. intros Hs Hmeta.
  destruct (pickle_load files) as [unpickled|e] eqn:Hp.
  2:{ subst s. exfalso. apply Hmeta. reflexivity. }
  destruct (json_load files) as [meta|e] eqn:Hj.
  2:{ subst s. exfalso. apply Hmeta. reflexivity. }
  exists unpickled.
  destruct (py_getitem meta ModelVersion); subst s; simpl;
    repeat split; intros ->; reflexivity.
Qed.

End Loading.

Section Serving.

Context {F : Type} {FO : FloatOps F} {NP : Numpy F}.

(** The state [main] serves: both files were read, and the metadata is a
    dict with the key model_version. *)
Lemma main_serves (files : Files) (s : State) :
  main files = Some s ->
  exists unpickled items version,
    pickle_load files = Ok unpickled /\
    json_load files = Ok (JObj items) /\
    dict_get "model_version" items = Some version /\
    s = {| model := unpickled; model_meta := JObj items |}.
Proof.
  unfold main. intros H.
  destruct (load_model files initial) as [[[|]|e] s'] eqn:Hload; try discriminate.
  injection H as ->.
  apply load_model_true. exact Hload.
Qed.

(** X11: in the state [main] serves the feature schema never answers 503
    (when it answers, it answers 200), and scoring answers 503 exactly when
    the model file held a pickled [None]. *)
Theorem served_state_unavailable_iff_none (files : Files) (s : State) :
  main files = Some s ->
  (forall r, fst (get_features s) = Ok r -> status r = 200) /\
  (forall request r,
     fst (predict request s) = Ok r ->
     (status r = 503 <-> pickle_load files = Ok None)).
Proof.
  intros Hmain.
  destruct (main_serves _ _ Hmain) as (unpickled & items & version & Hp & _ & Hv & ->).
  split.
  - intros r. run.
    destruct (dict_get "features" items); simpl; [|discriminate].
    rewrite Hv. simpl.
    destruct (dict_get "block_threshold" items); simpl;
      destruct (dict_get "roc_auc" items); simpl;
      destruct (dict_get "pr_auc" items); simpl;
      intros H; injection H as <-; reflexivity.
  - intros request r Hr. rewrite Hp.
    destruct (predict_answer request _ r Hr)
      as [[Hm ->] | [(e & Hm & ->)
         | [(data & features & names & got & expected & Hm & _ & _ & _ & _ & _ & _ & ->)
         | (c & arr & ps & fp & lab & v & Hreach & _ & _ & _ & _ & ->)]]];
      simpl in *.
    + subst unpickled. split; reflexivity.
    + split; [discriminate|]. intros H. injection H as ->. contradiction.
    + split; [discriminate|]. intros H. injection H as ->. contradiction.
    + split; [discriminate|]. intros H. injection H as ->.
      destruct Hreach as [? ? ? ? Hmodel]. discriminate Hmodel.
Qed.

(** X12: the feature schema of a metadata dict that has features and
    model_version: status 200 with both, and with block_threshold, roc_auc
    and pr_auc as the metadata has them, null for each one it lacks. *)
Theorem get_features_defaults_to_null
    (s : State) (items : list (string * json F)) (features version : json F) :
  model_meta s = JObj items ->
  dict_get "features" items = Some features ->
  dict_get "model_version" items = Some version ->
  exists r,
    get_features s = (Ok r, s) /\
    status r = 200 /\
    field "features" r = Some features /\
    field "model_version" r = Some version /\
    (forall key,
       key = "block_threshold" \/ key = "roc_auc" \/ key = "pr_auc" ->
       field key r = Some (match dict_get key items with
                           | Some v => v
                           | None => JNull
                           end)).
Proof.
  intros Hmeta Hf Hv. run. rewrite Hmeta. simpl. rewrite Hf. simpl. rewrite Hv. simpl.
  destruct (dict_get "block_threshold" items) eqn:Hb; simpl;
    destruct (dict_get "roc_auc" items) eqn:Hr; simpl;
    destruct (dict_get "pr_auc" items) eqn:Hp; simpl;
    eexists; (split; [reflexivity|]); repeat split;
    intros key [-> | [-> | ->]]; unfold field; simpl;
    rewrite ?Hb, ?Hr, ?Hp; reflexivity.
Qed.

(** X13: a load succeeds on a metadata file without the key features.  In the
    state served then, the feature schema raises KeyError (it has no
    handler, so no JSON answer), and, when the model file held an object,
    every scoring request whose body has a sized feature vector is answered
    with status 500 and the text ['features']. *)
Theorem metadata_without_features
    (files : Files) (s : State) (items : list (string * json F)) :
  main files = Some s ->
  model_meta s = JObj items ->
  dict_get "features" items = None ->
  get_features s = (Raise (KeyError Features), s) /\
  (forall request data features n,
     model s <> None ->
     get_json request = Ok data ->
     py_get data "features" (JArr []) = Ok features ->
     py_len features = Ok n ->
     predict request s = (Ok (jsonify [("error", JStr "'features'")] 500), s)).
Proof.
  intros Hmain Hmeta Hnone.
  destruct (main_serves _ _ Hmain) as (unpickled & items' & version & _ & _ & Hv & ->).
  simpl in Hmeta. injection Hmeta as ->.
  split.
  - run. rewrite Hnone. reflexivity.
  - intros request data features n Hm Hd Hf Hn.
    simpl in Hm. destruct unpickled as [classifier|]; [|contradiction].
    run. rewrite Hd. simpl. rewrite Hf. simpl. rewrite Hn. simpl.
    rewrite Hnone. reflexivity.
Qed.

(** X14: in the state [main] serves, the three handlers report one version:
    health reports the metadata's model_version, and so does every answer
    of the feature schema and every success answer of scoring. *)
Theorem model_version_agrees (files : Files) (s : State) :
  main files = Some s ->
  exists version,
    py_getitem (model_meta s) ModelVersion = Ok version /\
    (exists r, health s = (Ok r, s) /\ field "model_version" r = Some version) /\
    (forall r, fst (get_features s) = Ok r -> field "model_version" r = Some version) /\
    (forall request r,
       fst (predict request s) = Ok r -> status r = 200 ->
       field "model_version" r = Some version).
Proof.
  intros Hmain.
  destruct (main_serves _ _ Hmain) as (unpickled & items & version & _ & _ & Hg & ->).
  assert (Hv : py_getitem (JObj items) ModelVersion = Ok version)
    by (simpl; rewrite Hg; reflexivity).
  exists version. split; [exact Hv|]. split; [|split].
  - run. destruct items as [|item items]; [discriminate Hg|].
    simpl in *. rewrite Hg. simpl. eexists. split; reflexivity.
  - intros r. run.
    destruct (dict_get "features" items); simpl; [|discriminate].
    rewrite Hg. simpl.
    destruct (dict_get "block_threshold" items); simpl;
      destruct (dict_get "roc_auc" items); simpl;
      destruct (dict_get "pr_auc" items); simpl;
      intros H; injection H as <-; reflexivity.
  - intros request r Hr H200.
    destruct (predict_answer request _ r Hr)
      as [[_ ->] | [(e & _ & ->)
         | [(data & features & names & got & expected & _ & _ & _ & _ & _ & _ & _ & ->)
         | (c & arr & ps & fp & lab & v & _ & _ & _ & _ & Hv' & ->)]]];
      simpl in H200; try discriminate H200.
    simpl in Hv'. rewrite Hg in Hv'. injection Hv' as <-. reflexivity.
Qed.

(** X15: health has no handler of its own: it raises exactly when the metadata
    is truthy and not a dict (a non-empty list or string, a non-zero number,
    [True]), and then with the AttributeError of the missing [get]. *)
Theorem health_raises_iff (s : State) :
  (exists e, fst (health s) = Raise e) <->
  (truthy (model_meta s) = true /\ forall items, model_meta s <> JObj items).
Proof.
  run. split.
  - intros [e H].
    destruct (model_meta s) as [ | b | z | x | text | l | items] eqn:Hmeta; simpl in *.
    1:{ discriminate H. }
    6:{ exfalso. destruct items as [|[k v] items]; simpl in H; [discriminate H|].
        destruct (String.eqb k "model_version"); simpl in H; [discriminate H|].
        destruct (dict_get "model_version" items); discriminate H. }
    all: match goal with
         | |- ?c = true /\ _ =>
             destruct c eqn:Hc; simpl in H; [split; [reflexivity|discriminate]|discriminate H]
         end.
  - intros [Ht Hobj].
    destruct (model_meta s) as [ | b | z | x | text | l | items] eqn:Hmeta; simpl in *.
    1:{ discriminate Ht. }
    6:{ exfalso. eapply Hobj. reflexivity. }
    all: rewrite Ht; simpl; eexists; reflexivity.
Qed.

(** X16: whenever health returns, the answer has status 200, and its status
    text and model_loaded follow [model] alone: UP and true when a model is
    assigned, DOWN and false when none is, whatever the metadata. *)
Theorem health_follows_model (s : State) (r : Response) :
  fst (health s) = Ok r ->
  status r = 200 /\
  (model s <> None ->
   field "status" r = Some (JStr "UP") /\ field "model_loaded" r = Some (JBool true)) /\
  (model s = None ->
   field "status" r = Some (JStr "DOWN") /\ field "model_loaded" r = Some (JBool false)).
Proof.
  run.
  destruct (truthy (model_meta s)); simpl.
  - destruct (py_get (model_meta s) "model_version" JNull); simpl; [|discriminate].
    intros H. injection H as <-. simpl.
    destruct (model s); repeat split; intros; try reflexivity; congruence.
  - intros H. injection H as <-. simpl.
    destruct (model s); repeat split; intros; try reflexivity; congruence.
Qed.

End Serving.

Section Checks.

Context {F : Type} {FO : FloatOps F} {NP : Numpy F}.

(** X17: the length check looks at [len] only: a string or a dict of the
    expected length passes it like a list and is not refused with status
    400.  It goes on to numpy, and is answered with status 500 and the text
    of numpy's exception when the conversion raises one. *)
Theorem length_check_accepts_any_sized_value
    (s : State) (request : Request) (classifier : Artifact)
    (data features names : json F) (n : nat) :
  model s = Some classifier ->
  get_json request = Ok data ->
  py_get data "features" (JArr []) = Ok features ->
  py_len features = Ok n ->
  py_getitem (model_meta s) Features = Ok names ->
  py_len names = Ok n ->
  (forall r, fst (predict request s) = Ok r -> status r = 200 \/ status r = 500) /\
  (forall e,
     np_array (JArr [features]) = Raise e ->
     is_exception e = true ->
     predict request s = (Ok (jsonify [("error", JStr (str e))] 500), s)).
Proof.
  intros Hm Hd Hf Hn Hnames Hlen.
  split.
  - intros r Hr.
    destruct (predict_answer request s r Hr)
      as [[Hnone _] | [(e & _ & ->)
         | [(data' & fv & names' & got & expected & _ & Hne & Hd' & Hf' & Hg & Hn' & He & ->)
         | (c & arr & ps & fp & lab & v & _ & _ & _ & _ & _ & ->)]]];
      simpl; auto.
    + congruence.
    + exfalso. apply Hne.
      rewrite Hd in Hd'. injection Hd' as Hdata. subst data'.
      rewrite Hf in Hf'. injection Hf' as Hfv. subst fv.
      rewrite Hnames in Hn'. injection Hn' as Hnm. subst names'.
      congruence.
  - intros e Harr He.
    run. rewrite Hm, Hd. simpl. rewrite Hf. simpl. rewrite Hn. simpl.
    rewrite Hnames. simpl. rewrite Hlen. simpl. rewrite Nat.eqb_refl. simpl.
    rewrite Harr. simpl. rewrite He. reflexivity.
Qed.

(** X18: a request refused for its length is refused without the classifier:
    the answer is the same whichever classifier is loaded. *)
Theorem refusal_ignores_classifier
    (s1 s2 : State) (request : Request) (r : Response) :
  model_meta s1 = model_meta s2 ->
  model s1 <> None ->
  model s2 <> None ->
  fst (predict request s1) = Ok r ->
  status r = 400 ->
  fst (predict request s2) = Ok r.
Proof.
  intros Hmeta Hm1 Hm2 Hr H400.
  destruct (predict_answer request s1 r Hr)
    as [[_ ->] | [(e & _ & ->)
       | [(data & features & names & got & expected & _ & Hne & Hd & Hf & Hg & Hn & He & ->)
       | (c & arr & ps & fp & lab & v & _ & _ & _ & _ & _ & ->)]]];
    simpl in H400; try discriminate H400.
  destruct (model s2) as [classifier|] eqn:Hc; [|contradiction].
  rewrite Hmeta in Hn.
  rewrite (predict_length_mismatch s2 request classifier data features names got expected);
    auto.
Qed.

End Checks.

(** * The further properties on concrete requests *)

(** The handlers in [example_state], computed. *)
Example example_answers :
  fst (predict example_request (example_state _ binary_classifier)) = Ok binary_answer /\
  fst (get_features (example_state _ binary_classifier)) = Ok example_schema /\
  fst (health (example_state _ binary_classifier)) = Ok up_answer /\
  fst (predict (features_request [1%float]) (example_state _ binary_classifier))
    = Ok refusal_answer.
Proof. repeat split. Qed.

(** The length of a string is its number of characters: the euro sign is
    three bytes of UTF-8 and one character. *)
Example euro_sign_has_length_one :
  py_len (F := float) (JStr (String (ascii_of_nat 226) (String (ascii_of_nat 130)
                               (String (ascii_of_nat 172) EmptyString)))) = Ok 1.
Proof. reflexivity. Qed.

(** The score of [example_request] is complete. *)
Lemma success_answer_is_complete_witness :
  exists classifier feature_array probabilities fraud_probability prediction version,
    reaches_classifier (example_state _ binary_classifier) example_request
      classifier feature_array /\
    first_row (predict_proba classifier feature_array) = Ok probabilities /\
    2 <= List.length probabilities /\
    fraud_probability_of probabilities = Ok fraud_probability /\
    first_row (predict_labels classifier feature_array) = Ok prediction /\
    py_getitem (model_meta (example_state _ binary_classifier)) ModelVersion
      = Ok version /\
    body binary_answer = JObj [("fraud_probability", JFloat fraud_probability);
                               ("prediction", JInt prediction);
                               ("probabilities", JArr (map JFloat probabilities));
                               ("model_version", version)].
Proof.
  apply (success_answer_is_complete example_request (example_state _ binary_classifier)
           binary_answer); reflexivity.
Defined.

(** The body [{"features": null}] is answered with status 500. *)
Lemma malformed_body_is_server_error_witness :
  predict null_features_request (example_state _ binary_classifier) =
    (Ok (jsonify [("error", JStr "object of type 'NoneType' has no len()")] 500),
     example_state _ binary_classifier).
Proof.
  apply (malformed_body_is_server_error (example_state _ binary_classifier)
           null_features_request binary_classifier _ eq_refl
           (malformed_unsized null_features_request [("features", JNull)] JNull
              eq_refl eq_refl (or_introl eq_refl))).
Defined.

(** The classifier that returns no row. *)
Lemma empty_output_is_server_error_witness :
  predict example_request (example_state _ silent_classifier) =
    (Ok (jsonify [("error", JStr "index 0 is out of bounds for axis 0 with size 0")] 500),
     example_state _ silent_classifier).
Proof.
  apply (empty_output_is_server_error (example_state _ silent_classifier) example_request
           silent_classifier [[1; 2]]%float (example_reaches _ _ _)).
  left. reflexivity.
Defined.

(** One float against the published list of two names. *)
Lemma published_length_decides_refusal_witness :
  (exists r,
     predict (features_request [1%float]) (example_state _ binary_classifier)
       = (Ok r, example_state _ binary_classifier) /\
     status r = 400) <->
  List.length [@JFloat float 1%float] <> List.length [@JStr float "amount"; JStr "velocity"].
Proof.
  apply (published_length_decides_refusal (example_state _ binary_classifier)
           (features_request [1%float]) binary_classifier example_schema
           [JStr "amount"; JStr "velocity"] [JFloat 1%float]
           (JObj [("features", JArr [JFloat 1%float])])); reflexivity.
Defined.

(** The load without a metadata file leaves the classifier assigned. *)
Lemma failed_load_keeps_assignments_witness :
  (exists e, pickle_load files_without_metadata = Raise e /\
             half_loaded_state = unloaded_state) \/
  (exists unpickled e,
     pickle_load files_without_metadata = Ok unpickled /\
     json_load files_without_metadata = Raise e /\
     half_loaded_state
       = {| model := unpickled; model_meta := model_meta unloaded_state |}) \/
  (exists unpickled meta e,
     pickle_load files_without_metadata = Ok unpickled /\
     json_load files_without_metadata = Ok meta /\
     py_getitem meta ModelVersion = Raise e /\
     half_loaded_state = {| model := unpickled; model_meta := meta |}).
Proof.
  apply (failed_load_keeps_assignments files_without_metadata unloaded_state
           half_loaded_state).
  reflexivity.
Defined.

Lemma health_is_up_after_metadata_failure_witness :
  exists s',
    load_model files_without_metadata initial
      = (if is_exception (Raised "No such file or directory") then Ok false
         else Raise (Raised "No such file or directory"), s') /\
    main files_without_metadata = None /\
    health s' =
      (Ok (jsonify [("status", JStr "UP"); ("model_loaded", JBool true);
                    ("model_version", JNull)] 200), s').
Proof.
  apply (health_is_up_after_metadata_failure files_without_metadata binary_classifier
           (Raised "No such file or directory")); reflexivity.
Defined.

(** Loading [example_files] from any state, and once more. *)
Lemma load_model_overwrites_witness :
  (forall s0, load_model example_files s0 = (Ok true, example_state _ binary_classifier)) /\
  load_model example_files (example_state _ binary_classifier)
    = (Ok true, example_state _ binary_classifier).
Proof.
  apply (load_model_overwrites example_files unloaded_state
           (example_state _ binary_classifier)).
  reflexivity.
Defined.

(** The state the load of a pickled [None] leaves. *)
Lemma metadata_implies_unpickled_witness :
  exists unpickled,
    pickle_load none_files = Ok unpickled /\
    model none_state = unpickled /\
    json_load none_files = Ok (model_meta none_state) /\
    (model none_state = None -> pickle_load none_files = Ok None).
Proof.
  apply (metadata_implies_unpickled none_files none_state); [reflexivity|discriminate].
Defined.

(** Serving after the load of a pickled [None]. *)
Lemma served_state_unavailable_iff_none_witness :
  (forall r, fst (get_features none_state) = Ok r -> status r = 200) /\
  (forall request r,
     fst (predict request none_state) = Ok r ->
     (status r = 503 <-> pickle_load none_files = Ok None)).
Proof.
  apply (served_state_unavailable_iff_none none_files none_state). reflexivity.
Defined.

(** [example_meta] has block_threshold (null) and lacks the two metrics. *)
Lemma get_features_defaults_to_null_witness :
  exists r,
    get_features (example_state _ binary_classifier)
      = (Ok r, example_state _ binary_classifier) /\
    status r = 200 /\
    field "features" r = Some (JArr [JStr "amount"; JStr "velocity"]) /\
    field "model_version" r = Some (JStr "xgb-1.0") /\
    (forall key,
       key = "block_threshold" \/ key = "roc_auc" \/ key = "pr_auc" ->
       field key r =
         Some (match dict_get key [("model_version", @JStr float "xgb-1.0");
                                   ("features", JArr [JStr "amount"; JStr "velocity"]);
                                   ("block_threshold", JNull)] with
               | Some v => v
               | None => JNull
               end)).
Proof.
  apply (get_features_defaults_to_null (example_state _ binary_classifier)
           [("model_version", JStr "xgb-1.0");
            ("features", JArr [JStr "amount"; JStr "velocity"]);
            ("block_threshold", JNull)]
           (JArr [JStr "amount"; JStr "velocity"]) (JStr "xgb-1.0")); reflexivity.
Defined.

(** The metadata file with the version only. *)
Lemma metadata_without_features_witness :
  get_features version_only_state = (Raise (KeyError Features), version_only_state) /\
  (forall request data features n,
     model version_only_state <> None ->
     get_json request = Ok data ->
     py_get data "features" (JArr []) = Ok features ->
     py_len features = Ok n ->
     predict request version_only_state
       = (Ok (jsonify [("error", JStr "'features'")] 500), version_only_state)).
Proof.
  apply (metadata_without_features version_only_files version_only_state
           [("model_version", JStr "xgb-1.0")]); reflexivity.
Defined.

Lemma model_version_agrees_witness :
  exists version,
    py_getitem (model_meta (example_state _ binary_classifier)) ModelVersion
      = Ok version /\
    (exists r, health (example_state _ binary_classifier)
                 = (Ok r, example_state _ binary_classifier) /\
               field "model_version" r = Some version) /\
    (forall r, fst (get_features (example_state _ binary_classifier)) = Ok r ->
               field "model_version" r = Some version) /\
    (forall request r,
       fst (predict request (example_state _ binary_classifier)) = Ok r ->
       status r = 200 ->
       field "model_version" r = Some version).
Proof.
  apply (model_version_agrees example_files (example_state _ binary_classifier)).
  reflexivity.
Defined.

Lemma health_follows_model_witness :
  status up_answer = 200 /\
  (model (example_state _ binary_classifier) <> None ->
   field "status" up_answer = Some (JStr "UP") /\
   field "model_loaded" up_answer = Some (JBool true)) /\
  (model (example_state _ binary_classifier) = None ->
   field "status" up_answer = Some (JStr "DOWN") /\
   field "model_loaded" up_answer = Some (JBool false)).
Proof.
  apply (health_follows_model (example_state _ binary_classifier) up_answer).
  reflexivity.
Defined.

(** The two features sent as a dict, where a list of two is expected:
    the dict has length two, passes the check, and is refused by numpy. *)
Lemma length_check_accepts_any_sized_value_witness :
  (forall r,
     fst (predict dict_features_request (example_state _ binary_classifier)) = Ok r ->
     status r = 200 \/ status r = 500) /\
  predict dict_features_request (example_state _ binary_classifier) =
    (Ok (jsonify
           [("error",
             JStr "float() argument must be a string or a real number, not 'dict'")]
           500),
     example_state _ binary_classifier).
Proof.
  pose proof (length_check_accepts_any_sized_value (example_state _ binary_classifier)
                dict_features_request binary_classifier
                (JObj [("features",
                        JObj [("amount", JFloat 1%float); ("velocity", JFloat 2%float)])])
                (JObj [("amount", JFloat 1%float); ("velocity", JFloat 2%float)])
                (JArr [JStr "amount"; JStr "velocity"]) 2
                eq_refl eq_refl eq_refl eq_refl eq_refl eq_refl) as [H1 H2].
  split; [exact H1|].
  apply (H2 (TypeError "float() argument must be a string or a real number, not 'dict'"));
    reflexivity.
Defined.

(** The refusal of one float, under the binary and the three-class
    classifier. *)
Lemma refusal_ignores_classifier_witness :
  fst (predict (features_request [1%float]) (example_state _ three_class_classifier))
    = Ok refusal_answer.
Proof.
  apply (refusal_ignores_classifier (example_state _ binary_classifier)
           (example_state _ three_class_classifier) (features_request [1%float])
           refusal_answer); try reflexivity; discriminate.
Defined.
